(** * hostinfoHV: hypervisor detection and backdoor feature queries

    A shallow embedding of [open-vm-tools/lib/misc/hostinfoHV.c].

    The C file is one translation unit whose shape is fixed by the
    preprocessor; the embedding keeps the preprocessor symbols as a
    [Build] record and every function branches on it where the source has
    an [#if].  The two function-local statics, the exchanges performed with
    the hypervisor and the lines handed to [Log] are the fields of a
    [World] that is threaded through a small outcome monad. *)

From Stdlib Require Import ZArith List Bool Lia String Ascii.
Import ListNotations.
Open Scope Z_scope.

(** ** Machine integers *)

(** [uint32] and [uint64] values are integers kept in range by an explicit
    wrap-around wherever the C code stores into such an object. *)
Definition to_uint32 (z : Z) : Z := z mod 2 ^ 32.
Definition to_uint64 (z : Z) : Z := z mod 2 ^ 64.

(** [~0U] *)
Definition UINT32_ALL_ONES : Z := 0xFFFFFFFF.

(** [1 << n] on [int].  C leaves the shift undefined unless
    [0 <= n < 32]; gcc and MSVC, the two compilers the file is written
    for, define the shift into the sign bit, and the [int] is converted to
    [unsigned] by the [&] it is an operand of. *)
Definition shl1 (n : Z) : option Z :=
  if (0 <=? n) && (n <? 32) then Some (to_uint32 (Z.shiftl 1 n)) else None.

(** Byte [i] (0 is the least significant) of a word: what a [char *]
    sees at offset [i] of a [uint32] on a little-endian machine. *)
Definition byte_of (w : Z) (i : nat) : Z :=
  Z.shiftr w (8 * Z.of_nat i) mod 256.

Definition bytes_of_word (w : Z) : list Z :=
  [byte_of w 0; byte_of w 1; byte_of w 2; byte_of w 3].

(** [(char * )name] for an array of [uint32]. *)
Definition chars_of_words (ws : list Z) : list Z :=
  flat_map bytes_of_word ws.

(** The bytes of a C string literal, terminator included. *)
Definition literal (s : string) : list Z :=
  map (fun c => Z.of_N (N_of_ascii c)) (list_ascii_of_string s) ++ [0].

(** [*(const uint32 * )(p + off)]: a little-endian load; bytes past the
    end of the object read as 0. *)
Definition load32 (p : list Z) (off : nat) : Z :=
  nth off p 0 + 2 ^ 8 * nth (off + 1) p 0 + 2 ^ 16 * nth (off + 2) p 0
  + 2 ^ 24 * nth (off + 3) p 0.

(** [strcmp] of the C library: the difference at the first byte where
    the strings differ, 0 when both end together.  A list that runs out
    stands for its terminator. *)
Fixpoint strcmp (s1 s2 : list Z) : Z :=
  match s1, s2 with
  | [], [] => 0
  | [], c2 :: _ => 0 - c2
  | c1 :: _, [] => c1
  | c1 :: t1, c2 :: t2 =>
      if c1 =? c2 then (if c1 =? 0 then 0 else strcmp t1 t2) else c1 - c2
  end.

(** [memcmp] of the C library over the first [n] bytes; 0 when they
    agree. *)
Fixpoint memcmp (s1 s2 : list Z) (n : nat) : Z :=
  match n with
  | O => 0
  | S n' =>
      let c1 := hd 0 s1 in
      let c2 := hd 0 s2 in
      if c1 =? c2 then memcmp (tl s1) (tl s2) n' else c1 - c2
  end.

(** The string a [char *] denotes: the bytes before the first nul. *)
Fixpoint c_string (p : list Z) : list Z :=
  match p with
  | [] => []
  | c :: t => if c =? 0 then [] else c :: c_string t
  end.

(** ** Build configuration *)

(** The preprocessor symbols the file tests. *)
Record Build := {
  _WIN32 : bool;
  _WIN64 : bool;
  __linux__ : bool;
  __GNUC__ : bool;
  GCC_VERSION : Z;
  __i386__ : bool;
  __x86_64__ : bool;
  __aarch64__ : bool
}.

(** [defined(__i386__) || defined(__x86_64__)] *)
Definition x86 (b : Build) : bool := __i386__ b || __x86_64__ b.

(** Lines 42-54: [USE_HYPERCALL] is defined for gcc newer than 4.8.3 on
    Linux, except on aarch64, and never on Windows. *)
Definition USE_HYPERCALL (b : Build) : bool :=
  negb (_WIN32 b) && (__linux__ b && __GNUC__ b)
  && ((40803 <? GCC_VERSION b) && negb (__aarch64__ b)).

(** ** Constants of the headers *)

(** [backdoor_def.h] *)
Record backdoor_def := {
  BDOOR_MAGIC : Z;
  BDOOR_PORT : Z;
  BDOOR_FLAGS_LB : Z;
  BDOOR_FLAGS_READ : Z;
  BDOOR_CMD_GETVERSION : Z;
  BDOOR_CMD_GETBUILDNUM : Z;
  BDOOR_CMD_GET_VCPU_INFO : Z;
  BDOOR_CMD_NESTING_CONTROL : Z;
  NESTING_CONTROL_QUERY : Z;
  BDOOR_CMD_VCPU_SYNC_VTSCS : Z;
  BDOOR_CMD_VCPU_RESERVED : Z;
  X86_IO_MAGIC : Z;
  X86_IO_W7_WITH : Z;
  X86_IO_W7_DIR : Z;
  X86_IO_W7_SIZE_SHIFT : Z
}.

(** [x86cpuid.h]: leaf numbers, the masks [CPUID_ISSET] tests and the
    vendor strings. *)
Record x86cpuid_def := {
  CPUID_FEATURE_INFORMATION : Z;
  CPUID_HYPERVISOR_LEVEL_0 : Z;
  CPUID_VMW_FEATURES : Z;
  CPUID_HYPERVISOR_MASK : Z;
  CPUID_VMCALL_BACKDOOR_MASK : Z;
  CPUID_VMMCALL_BACKDOOR_MASK : Z;
  CPUID_VMWARE_HYPERVISOR_VENDOR_STRING : string;
  CPUID_XEN_HYPERVISOR_VENDOR_STRING : string;
  CPUID_HYPERV_HYPERVISOR_VENDOR_STRING : string
}.

(** The values the headers of open-vm-tools give these names. *)
Definition vmware_backdoor_def : backdoor_def := {|
  BDOOR_MAGIC := 0x564D5868;
  BDOOR_PORT := 0x5658;
  BDOOR_FLAGS_LB := 0;
  BDOOR_FLAGS_READ := 0;
  BDOOR_CMD_GETVERSION := 10;
  BDOOR_CMD_GETBUILDNUM := 81;
  BDOOR_CMD_GET_VCPU_INFO := 68;
  BDOOR_CMD_NESTING_CONTROL := 66;
  NESTING_CONTROL_QUERY := 2;
  BDOOR_CMD_VCPU_SYNC_VTSCS := 1;
  BDOOR_CMD_VCPU_RESERVED := 31;
  X86_IO_MAGIC := 0x86;
  X86_IO_W7_WITH := 8;
  X86_IO_W7_DIR := 4;
  X86_IO_W7_SIZE_SHIFT := 0
|}.

Definition vmware_x86cpuid_def : x86cpuid_def := {|
  CPUID_FEATURE_INFORMATION := 1;
  CPUID_HYPERVISOR_LEVEL_0 := 0x40000000;
  CPUID_VMW_FEATURES := 0x40000010;
  CPUID_HYPERVISOR_MASK := 0x80000000;
  CPUID_VMCALL_BACKDOOR_MASK := 2;
  CPUID_VMMCALL_BACKDOOR_MASK := 1;
  CPUID_VMWARE_HYPERVISOR_VENDOR_STRING := "VMwareVMware";
  CPUID_XEN_HYPERVISOR_VENDOR_STRING := "XenVMMXenVMM";
  CPUID_HYPERV_HYPERVISOR_VENDOR_STRING := "Microsoft Hv"
|}.

(** ** Data model *)

(** Modelled from the spec: [BackdoorInterface] of backdoor_types.h, an
    "enumerated variant over {Undetermined, FastCallA, FastCallB,
    PortIO}". *)
Inductive BackdoorInterface :=
| BACKDOOR_INTERFACE_NONE
| BACKDOOR_INTERFACE_IO
| BACKDOOR_INTERFACE_VMCALL
| BACKDOOR_INTERFACE_VMMCALL.

Definition BackdoorInterface_eqb (a b : BackdoorInterface) : bool :=
  match a, b with
  | BACKDOOR_INTERFACE_NONE, BACKDOOR_INTERFACE_NONE
  | BACKDOOR_INTERFACE_IO, BACKDOOR_INTERFACE_IO
  | BACKDOOR_INTERFACE_VMCALL, BACKDOOR_INTERFACE_VMCALL
  | BACKDOOR_INTERFACE_VMMCALL, BACKDOOR_INTERFACE_VMMCALL => true
  | _, _ => false
  end.

(** Modelled from the spec: [CPUIDRegs] of x86cpuid.h, "four unsigned
    32-bit fields (conventionally named eax/ebx/ecx/edx)" returned by one
    read of one identification leaf. *)
Record CPUIDRegs := {
  eax : Z;
  ebx : Z;
  ecx : Z;
  edx : Z
}.

(** The instruction that carries a backdoor exchange.  On aarch64 the
    descriptor in [x7] is part of the instruction's encoding of the x86
    port access. *)
Inductive Insn :=
| INSN_VMCALL
| INSN_VMMCALL
| INSN_INL
| INSN_MRS_MDCCSR (x7 : Z).

(** What the guest loads before the instruction.  A register the code
    leaves alone is [None]: the hypervisor sees whatever it held. *)
Record Request := {
  insn : Insn;
  in_ax : Z;
  in_bx : option Z;
  in_cx : Z;
  in_dx : Z
}.

(** What the registers hold when the instruction has completed. *)
Record Response := {
  out_ax : Z;
  out_bx : Z;
  out_cx : Z
}.

Definition Exchange : Type := Request * Response.

(** The lines the file logs. *)
Inductive LogMsg :=
| LOG_NO_VENDOR_SIGNATURE
| LOG_NO_INTERFACE_SIGNATURE
| LOG_HYPERVISOR_NOT_FOUND
| LOG_CPUID_HEADER
| LOG_CPUID_LEAF (leafId a b c d : Z)
| LOG_NOT_TESTED
| LOG_XEN_UNRECOGNIZED
| LOG_XEN_CPUID (a b c d : Z).

(** The mutable state of a process that links the file. *)
Record World := {
  interface : BackdoorInterface;
  hypervisorPresent : bool;
  exchanges : list Exchange;
  logged : list LogMsg
}.

(** Program start: [interface] is initialised to
    [BACKDOOR_INTERFACE_NONE] (line 109), [hypervisorPresent] to zero as
    every static without an initialiser (line 167). *)
Definition process_start : World := {|
  interface := BACKDOOR_INTERFACE_NONE;
  hypervisorPresent := false;
  exchanges := [];
  logged := []
|}.

(** ** The outcome monad *)

(** A call returns a value in a new world, is ended by a processor
    exception (the documented result of probing outside a virtual
    machine), or has no behaviour defined by C. *)
Inductive Outcome (A : Type) :=
| Returned (a : A) (w : World)
| Faulted
| Undefined.

Arguments Returned {A} a w.
Arguments Faulted {A}.
Arguments Undefined {A}.

Definition M (A : Type) : Type := World -> Outcome A.

Definition ret {A} (a : A) : M A := fun w => Returned a w.

Definition bind {A B} (m : M A) (k : A -> M B) : M B :=
  fun w =>
    match m w with
    | Returned a w' => k a w'
    | Faulted => Faulted
    | Undefined => Undefined
    end.

Declare Scope hv_scope.
Delimit Scope hv_scope with hv.
Notation "x <- m ;; k" := (bind m (fun x => k))
  (at level 61, m at next level, right associativity) : hv_scope.
Notation "m ;; k" := (bind m (fun _ => k))
  (at level 61, right associativity) : hv_scope.
Open Scope hv_scope.

Definition when (c : bool) (m : M unit) : M unit :=
  if c then m else ret tt.

Definition defined {A} (o : option A) : M A :=
  match o with
  | Some a => ret a
  | None => fun _ => Undefined
  end.

Definition get_interface : M BackdoorInterface :=
  fun w => Returned (interface w) w.

Definition set_interface (i : BackdoorInterface) : M unit :=
  fun w => Returned tt
    {| interface := i; hypervisorPresent := hypervisorPresent w;
       exchanges := exchanges w; logged := logged w |}.

Definition get_hypervisorPresent : M bool :=
  fun w => Returned (hypervisorPresent w) w.

Definition set_hypervisorPresent (p : bool) : M unit :=
  fun w => Returned tt
    {| interface := interface w; hypervisorPresent := p;
       exchanges := exchanges w; logged := logged w |}.

Definition Log (m : LogMsg) : M unit :=
  fun w => Returned tt
    {| interface := interface w; hypervisorPresent := hypervisorPresent w;
       exchanges := exchanges w; logged := logged w ++ [m] |}.

(** ** The program *)

Section HostinfoHV.

(** How the translation unit was compiled, and the headers it saw. *)
Variable b : Build.
Variable bd : backdoor_def.
Variable cd : x86cpuid_def.

(** The platform primitives.  [cpuid] is the identification instruction:
    a function of the leaf.  [hypervisor] answers a backdoor exchange, given
    the exchanges that came before, or raises an exception in the guest
    ([None]).  [ud2a_xen_cpuid] is the sequence [ud2a; .ascii "xen"; cpuid]:
    it returns registers under Xen and raises #UD elsewhere. *)
Variable cpuid : Z -> CPUIDRegs.
Variable hypervisor : list Exchange -> Request -> option Response.
Variable ud2a_xen_cpuid : Z -> option CPUIDRegs.

(** Modelled from the spec: [__GET_CPUID] of x86cpuid_asm.h, the
    identification reader.  "Given a 32-bit leaf selector, returns the four
    register values reported by the processor for that leaf", into the four
    [uint32] fields of a [CPUIDRegs]. *)
Definition __GET_CPUID (leaf : Z) : CPUIDRegs :=
  let r := cpuid leaf in
  {| eax := to_uint32 (eax r); ebx := to_uint32 (ebx r);
     ecx := to_uint32 (ecx r); edx := to_uint32 (edx r) |}.

Definition __GET_EAX_FROM_CPUID (leaf : Z) : Z := eax (__GET_CPUID leaf).
Definition __GET_ECX_FROM_CPUID (leaf : Z) : Z := ecx (__GET_CPUID leaf).

(** Modelled from the spec: [CPUID_ISSET] of x86cpuid.h, which "inspects
    one reserved feature bit" of a register: [(data & mask) != 0] for the
    mask the header gives the flag. *)
Definition CPUID_ISSET (mask data : Z) : bool :=
  negb (Z.land data mask =? 0).

(** Modelled from the spec: [CPUID_IsRawVendor] of x86cpuid.h is not part of
    this file.  The selector needs "its vendor string" to "match the
    expected vendor": the three registers that hold the vendor string are
    compared with the three words of the expected string. *)
Definition CPUID_IsRawVendor (id0 : CPUIDRegs) (vendor : string) : bool :=
  (ebx id0 =? load32 (literal vendor) 0)
  && (ecx id0 =? load32 (literal vendor) 4)
  && (edx id0 =? load32 (literal vendor) 8).

(** One execution of a backdoor instruction: the exchange is appended to
    the world's record, unless the instruction raises an exception. *)
Definition backdoor (rq : Request) : M Response :=
  fun w =>
    match hypervisor (exchanges w) rq with
    | Some rs =>
        Returned rs
          {| interface := interface w;
             hypervisorPresent := hypervisorPresent w;
             exchanges := exchanges w ++ [(rq, rs)];
             logged := logged w |}
    | None => Faulted
    end.

(** Line 56 *)
Definition BDOOR_FLAGS_LB_READ : Z :=
  Z.lor (BDOOR_FLAGS_LB bd) (BDOOR_FLAGS_READ bd).

(** Lines 58-83: the three macros load eax, ecx and edx and read eax. *)
Definition Vmcall (cmd : Z) : M Z :=
  rs <- backdoor {| insn := INSN_VMCALL; in_ax := BDOOR_MAGIC bd;
                    in_bx := None; in_cx := cmd;
                    in_dx := BDOOR_FLAGS_LB_READ |} ;;
  ret (to_uint32 (out_ax rs)).

Definition Vmmcall (cmd : Z) : M Z :=
  rs <- backdoor {| insn := INSN_VMMCALL; in_ax := BDOOR_MAGIC bd;
                    in_bx := None; in_cx := cmd;
                    in_dx := BDOOR_FLAGS_LB_READ |} ;;
  ret (to_uint32 (out_ax rs)).

Definition Ioportcall (cmd : Z) : M Z :=
  rs <- backdoor {| insn := INSN_INL; in_ax := BDOOR_MAGIC bd;
                    in_bx := None; in_cx := cmd;
                    in_dx := BDOOR_PORT bd |} ;;
  ret (to_uint32 (out_ax rs)).

(** Lines 104-144 *)
Definition HostinfoBackdoorGetInterface : M BackdoorInterface :=
  if USE_HYPERCALL b then
    i <- get_interface ;;
    when (BackdoorInterface_eqb i BACKDOOR_INTERFACE_NONE)
      (if x86 b then
         (let regs := __GET_CPUID (CPUID_FEATURE_INFORMATION cd) in
          when (CPUID_ISSET (CPUID_HYPERVISOR_MASK cd) (ecx regs))
            (let regs := __GET_CPUID (CPUID_HYPERVISOR_LEVEL_0 cd) in
             when (CPUID_IsRawVendor regs
                     (CPUID_VMWARE_HYPERVISOR_VENDOR_STRING cd))
               (when (CPUID_VMW_FEATURES cd <=?
                        __GET_EAX_FROM_CPUID (CPUID_HYPERVISOR_LEVEL_0 cd))
                  (let features :=
                     __GET_ECX_FROM_CPUID (CPUID_VMW_FEATURES cd) in
                   if CPUID_ISSET (CPUID_VMCALL_BACKDOOR_MASK cd) features
                   then set_interface BACKDOOR_INTERFACE_VMCALL
                   else if CPUID_ISSET (CPUID_VMMCALL_BACKDOOR_MASK cd)
                             features
                   then set_interface BACKDOOR_INTERFACE_VMMCALL
                   else ret tt)))) ;;
         i' <- get_interface ;;
         when (BackdoorInterface_eqb i' BACKDOOR_INTERFACE_NONE)
           (set_interface BACKDOOR_INTERFACE_IO)
       else set_interface BACKDOOR_INTERFACE_IO) ;;
    get_interface
  else ret BACKDOOR_INTERFACE_IO.

(** Lines 164-176 *)
Definition Hostinfo_HypervisorPresent : M bool :=
  p <- get_hypervisorPresent ;;
  when (negb p)
    (let regs := __GET_CPUID (CPUID_FEATURE_INFORMATION cd) in
     set_hypervisorPresent
       (CPUID_ISSET (CPUID_HYPERVISOR_MASK cd) (ecx regs))) ;;
  get_hypervisorPresent.

(** Lines 197-223.  The result is the buffer seen through [char *], or
    [None] for [NULL]. *)
Definition Hostinfo_HypervisorCPUIDSig : M (option (list Z)) :=
  if x86 b then
    present <- Hostinfo_HypervisorPresent ;;
    if negb present then ret None
    else
      let regs := __GET_CPUID 0x40000000 in
      when (eax regs <? 0x40000000) (Log LOG_NO_VENDOR_SIGNATURE) ;;
      let name := [ebx regs; ecx regs; edx regs; 0] in
      ret (Some (chars_of_words name))
  else ret None.

(** The loop of lines 260-264: [n] leaves from [leafId] up. *)
Fixpoint log_leaves (leafId : Z) (n : nat) : M unit :=
  match n with
  | O => ret tt
  | S n' =>
      let regs := __GET_CPUID leafId in
      Log (LOG_CPUID_LEAF leafId (eax regs) (ebx regs) (ecx regs)
             (edx regs)) ;;
      log_leaves (leafId + 1) n'
  end.

(** Lines 239-269 *)
Definition Hostinfo_LogHypervisorCPUID : M unit :=
  if x86 b then
    present <- Hostinfo_HypervisorPresent ;;
    if negb present then Log LOG_HYPERVISOR_NOT_FOUND
    else
      let regs := __GET_CPUID 0x40000000 in
      let maxLeaf :=
        if 0x400000FF <? eax regs then 0x400000FF else eax regs in
      if maxLeaf <? 0x40000000 then Log LOG_NO_VENDOR_SIGNATURE
      else
        Log LOG_CPUID_HEADER ;;
        log_leaves 0x40000000 (Z.to_nat (maxLeaf - 0x40000000 + 1))
  else ret tt.

(** Lines 290-317 *)
Definition Hostinfo_HypervisorInterfaceSig : M (option (list Z)) :=
  if x86 b then
    present <- Hostinfo_HypervisorPresent ;;
    if negb present then ret None
    else
      let regs := __GET_CPUID 0x40000000 in
      if eax regs <? 0x40000001 then
        Log LOG_NO_INTERFACE_SIGNATURE ;;
        ret None
      else
        let regs := __GET_CPUID 0x40000001 in
        if negb (eax regs =? 0) then
          let intrSig := [eax regs; 0] in
          ret (Some (chars_of_words intrSig))
        else ret None
  else ret None.

(** Line 352 *)
Definition XEN_CPUID : Z := 0x40000000.

(** Lines 348-388.  The asm statement writes ebx, ecx and edx; eax keeps
    the leaf that was loaded. *)
Definition Hostinfo_TouchXen : M bool :=
  if __linux__ b && x86 b then
    match ud2a_xen_cpuid XEN_CPUID with
    | None => fun _ => Faulted
    | Some out =>
        let regs :=
          {| eax := XEN_CPUID; ebx := to_uint32 (ebx out);
             ecx := to_uint32 (ecx out); edx := to_uint32 (edx out) |} in
        let name := [ebx regs; ecx regs; edx regs; 0] in
        if strcmp (literal (CPUID_XEN_HYPERVISOR_VENDOR_STRING cd))
             (chars_of_words name) =? 0
        then ret true
        else
          Log LOG_NOT_TESTED ;;
          Log LOG_XEN_UNRECOGNIZED ;;
          Log (LOG_XEN_CPUID (eax regs) (ebx regs) (ecx regs) (edx regs)) ;;
          ret false
    end
  else ret false.

(** Lines 405-422.  [sizeof] of the literal counts its terminator. *)
Definition Hostinfo_HyperV : M bool :=
  if x86 b then
    hypervisorSig <- Hostinfo_HypervisorCPUIDSig ;;
    match hypervisorSig with
    | Some sig =>
        let lit := literal (CPUID_HYPERV_HYPERVISOR_VENDOR_STRING cd) in
        ret (memcmp lit sig (List.length lit) =? 0)
    | None => ret false
    end
  else ret false.

(** *** Windows (lines 454-735) *)

(** Modelled from the spec: [Hostinfo_BackdoorInOut] of
    touchBackdoorMasm64.asm, which "performs exactly one atomic
    register-level exchange and returns the result register(s)": it loads
    the registers from the [in] half of a [Backdoor_proto], executes the
    port read and stores the registers into the [out] half.  Fields the
    caller never wrote are not loaded with anything the code chose. *)
Definition Hostinfo_BackdoorInOut (ax : Z) (bx : option Z) (cx dx : Z)
  : M Response :=
  backdoor {| insn := INSN_INL; in_ax := ax; in_bx := bx; in_cx := cx;
              in_dx := dx |}.

(** Lines 486-520 *)
Definition Hostinfo_TouchBackDoor_win : M bool :=
  ebxval <-
    (if _WIN64 b then
       rs <- Hostinfo_BackdoorInOut (BDOOR_MAGIC bd)
               (Some (to_uint64 (Z.lnot (BDOOR_MAGIC bd))))
               (BDOOR_CMD_GETVERSION bd) (BDOOR_PORT bd) ;;
       ret (to_uint32 (out_bx rs))
     else
       rs <- backdoor {| insn := INSN_INL; in_ax := BDOOR_MAGIC bd;
                         in_bx := Some (to_uint32 (Z.lnot (BDOOR_MAGIC bd)));
                         in_cx := BDOOR_CMD_GETVERSION bd;
                         in_dx := BDOOR_PORT bd |} ;;
       ret (to_uint32 (out_bx rs))) ;;
  ret (if ebxval =? BDOOR_MAGIC bd then true else false).

(** Lines 594-628 *)
Definition Hostinfo_NestingSupported_win : M bool :=
  let cmd :=
    to_uint32 (Z.lor (Z.shiftl (NESTING_CONTROL_QUERY bd) 16)
                 (BDOOR_CMD_NESTING_CONTROL bd)) in
  result <-
    (if _WIN64 b then
       rs <- Hostinfo_BackdoorInOut (BDOOR_MAGIC bd) None cmd
               (BDOOR_PORT bd) ;;
       ret (to_uint32 (out_ax rs))
     else
       rs <- backdoor {| insn := INSN_INL; in_ax := BDOOR_MAGIC bd;
                         in_bx := None; in_cx := cmd;
                         in_dx := BDOOR_PORT bd |} ;;
       ret (to_uint32 (out_ax rs))) ;;
  if (NESTING_CONTROL_QUERY bd <=? result)
     && negb (result =? UINT32_ALL_ONES)
  then ret true
  else ret false.

(** The return expression of lines 682-683 and 971-972.  [&&] evaluates
    its right operand, and with it the shift by [bit], only when the left
    one holds. *)
Definition vcpu_info_test (result bit : Z) : M bool :=
  reserved <- defined (shl1 (BDOOR_CMD_VCPU_RESERVED bd)) ;;
  if Z.land result reserved =? 0 then
    requested <- defined (shl1 bit) ;;
    ret (negb (Z.land result requested =? 0))
  else ret false.

(** Lines 652-684 *)
Definition Hostinfo_VCPUInfoBackdoor_win (bit : Z) : M bool :=
  let cmd := BDOOR_CMD_GET_VCPU_INFO bd in
  result <-
    (if _WIN64 b then
       rs <- Hostinfo_BackdoorInOut (BDOOR_MAGIC bd) None cmd
               (BDOOR_PORT bd) ;;
       ret (to_uint32 (out_ax rs))
     else
       rs <- backdoor {| insn := INSN_INL; in_ax := BDOOR_MAGIC bd;
                         in_bx := None; in_cx := cmd;
                         in_dx := BDOOR_PORT bd |} ;;
       ret (to_uint32 (out_ax rs))) ;;
  vcpu_info_test result bit.

(** Lines 705-735 *)
Definition Hostinfo_GetNestedBuildNum_win : M Z :=
  let cmd := BDOOR_CMD_GETBUILDNUM bd in
  result <-
    (if _WIN64 b then
       rs <- Hostinfo_BackdoorInOut (BDOOR_MAGIC bd) None cmd
               (BDOOR_PORT bd) ;;
       ret (to_uint32 (out_ax rs))
     else
       rs <- backdoor {| insn := INSN_INL; in_ax := BDOOR_MAGIC bd;
                         in_bx := None; in_cx := cmd;
                         in_dx := BDOOR_PORT bd |} ;;
       ret (to_uint32 (out_ax rs))) ;;
  ret result.

(** *** Everything else (lines 737-1020) *)

(** Lines 764-826 *)
Definition Hostinfo_TouchBackDoor_posix : M bool :=
  if x86 b then
    i <- HostinfoBackdoorGetInterface ;;
    let port_io :=
      rs <- backdoor {| insn := INSN_INL; in_ax := BDOOR_MAGIC bd;
                        in_bx := Some (to_uint32 (Z.lnot (BDOOR_MAGIC bd)));
                        in_cx := BDOOR_CMD_GETVERSION bd;
                        in_dx := BDOOR_PORT bd |} ;;
      let ebx := to_uint32 (out_bx rs) in
      if ebx =? BDOOR_MAGIC bd then ret true else ret false in
    match i with
    | BACKDOOR_INTERFACE_VMCALL
    | BACKDOOR_INTERFACE_VMMCALL =>
        if USE_HYPERCALL b then ret true else port_io
    | _ => port_io
    end
  else if __aarch64__ b then
    let x7 :=
      Z.lor (Z.lor (Z.lor (Z.shiftl (X86_IO_MAGIC bd) 32)
                      (X86_IO_W7_WITH bd)) (X86_IO_W7_DIR bd))
        (Z.shiftl 2 (X86_IO_W7_SIZE_SHIFT bd)) in
    rs <- backdoor {| insn := INSN_MRS_MDCCSR (to_uint64 x7);
                      in_ax := BDOOR_MAGIC bd;
                      in_bx := Some (to_uint32 (Z.lnot (BDOOR_MAGIC bd)));
                      in_cx := BDOOR_CMD_GETVERSION bd;
                      in_dx := BDOOR_PORT bd |} ;;
    let w1 := to_uint32 (out_bx rs) in
    if w1 =? BDOOR_MAGIC bd then ret true else ret false
  else ret false.

(** Lines 899-926 *)
Definition Hostinfo_NestingSupported_posix : M bool :=
  if x86 b then
    let cmd :=
      to_uint32 (Z.lor (Z.shiftl (NESTING_CONTROL_QUERY bd) 16)
                   (BDOOR_CMD_NESTING_CONTROL bd)) in
    i <- HostinfoBackdoorGetInterface ;;
    result <-
      match i with
      | BACKDOOR_INTERFACE_VMCALL =>
          if USE_HYPERCALL b then Vmcall cmd else Ioportcall cmd
      | BACKDOOR_INTERFACE_VMMCALL =>
          if USE_HYPERCALL b then Vmmcall cmd else Ioportcall cmd
      | _ => Ioportcall cmd
      end ;;
    if (NESTING_CONTROL_QUERY bd <=? result)
       && negb (result =? UINT32_ALL_ONES)
    then ret true
    else ret false
  else ret false.

(** Lines 950-975 *)
Definition Hostinfo_VCPUInfoBackdoor_posix (bit : Z) : M bool :=
  if x86 b then
    let cmd := BDOOR_CMD_GET_VCPU_INFO bd in
    i <- HostinfoBackdoorGetInterface ;;
    result <-
      match i with
      | BACKDOOR_INTERFACE_VMCALL =>
          if USE_HYPERCALL b then Vmcall cmd else Ioportcall cmd
      | BACKDOOR_INTERFACE_VMMCALL =>
          if USE_HYPERCALL b then Vmmcall cmd else Ioportcall cmd
      | _ => Ioportcall cmd
      end ;;
    vcpu_info_test result bit
  else ret false.

(** Lines 996-1019 *)
Definition Hostinfo_GetNestedBuildNum_posix : M Z :=
  if x86 b then
    let cmd := BDOOR_CMD_GETBUILDNUM bd in
    i <- HostinfoBackdoorGetInterface ;;
    result <-
      match i with
      | BACKDOOR_INTERFACE_VMCALL =>
          if USE_HYPERCALL b then Vmcall cmd else Ioportcall cmd
      | BACKDOOR_INTERFACE_VMMCALL =>
          if USE_HYPERCALL b then Vmmcall cmd else Ioportcall cmd
      | _ => Ioportcall cmd
      end ;;
    ret result
  else ret 0.

(** *** The functions as the linker sees them: line 454 picks one
    definition of each. *)
Definition Hostinfo_TouchBackDoor : M bool :=
  if _WIN32 b then Hostinfo_TouchBackDoor_win
  else Hostinfo_TouchBackDoor_posix.

Definition Hostinfo_NestingSupported : M bool :=
  if _WIN32 b then Hostinfo_NestingSupported_win
  else Hostinfo_NestingSupported_posix.

Definition Hostinfo_VCPUInfoBackdoor (bit : Z) : M bool :=
  if _WIN32 b then Hostinfo_VCPUInfoBackdoor_win bit
  else Hostinfo_VCPUInfoBackdoor_posix bit.

Definition Hostinfo_GetNestedBuildNum : M Z :=
  if _WIN32 b then Hostinfo_GetNestedBuildNum_win
  else Hostinfo_GetNestedBuildNum_posix.

(** Lines 443-451 *)
Definition Hostinfo_SynchronizedVTSCs : M bool :=
  if x86 b then Hostinfo_VCPUInfoBackdoor (BDOOR_CMD_VCPU_SYNC_VTSCS bd)
  else ret false.

End HostinfoHV.

(** ** What the cached answers are compared with *)

Section Reference.

Variable b : Build.
Variable cd : x86cpuid_def.
Variable cpuid : Z -> CPUIDRegs.

(** The presence bit: the hypervisor flag in ecx of the feature leaf. *)
Definition presence_bit : bool :=
  CPUID_ISSET (CPUID_HYPERVISOR_MASK cd)
    (ecx (__GET_CPUID cpuid (CPUID_FEATURE_INFORMATION cd))).

(** The base hypervisor leaf carries the expected vendor string. *)
Definition vendor_matches : bool :=
  CPUID_IsRawVendor (__GET_CPUID cpuid (CPUID_HYPERVISOR_LEVEL_0 cd))
    (CPUID_VMWARE_HYPERVISOR_VENDOR_STRING cd).

(** The maximum leaf the base hypervisor leaf reports reaches the feature
    leaf. *)
Definition feature_leaf_available : bool :=
  CPUID_VMW_FEATURES cd
  <=? eax (__GET_CPUID cpuid (CPUID_HYPERVISOR_LEVEL_0 cd)).

(** The two capability bits of the feature leaf. *)
Definition vmcall_bit : bool :=
  CPUID_ISSET (CPUID_VMCALL_BACKDOOR_MASK cd)
    (ecx (__GET_CPUID cpuid (CPUID_VMW_FEATURES cd))).

Definition vmmcall_bit : bool :=
  CPUID_ISSET (CPUID_VMMCALL_BACKDOOR_MASK cd)
    (ecx (__GET_CPUID cpuid (CPUID_VMW_FEATURES cd))).

(** The algorithm of section 4.3 of the specification, in its words: port
    I/O when fast calls are not supported by the build or target, when the
    presence bit is unset, when the vendor differs, when the feature leaf is
    not available and when neither capability bit is set; otherwise the
    first capability that is set, FastCallA before FastCallB. *)
Definition selector_spec : BackdoorInterface :=
  if negb (USE_HYPERCALL b && x86 b) then BACKDOOR_INTERFACE_IO
  else if negb presence_bit then BACKDOOR_INTERFACE_IO
  else if negb vendor_matches then BACKDOOR_INTERFACE_IO
  else if negb feature_leaf_available then BACKDOOR_INTERFACE_IO
  else if vmcall_bit then BACKDOOR_INTERFACE_VMCALL
  else if vmmcall_bit then BACKDOOR_INTERFACE_VMMCALL
  else BACKDOOR_INTERFACE_IO.

(** A world whose two statics hold nothing but what the processor says:
    [hypervisorPresent] is set only if the presence bit is, and
    [interface] is undetermined or the selector's choice. *)
Definition consistent (w : World) : Prop :=
  (hypervisorPresent w = true -> presence_bit = true)
  /\ (interface w = BACKDOOR_INTERFACE_NONE \/ interface w = selector_spec).

End Reference.

(** ** Process lifetimes *)

(** The entry points of the file, and the two static helpers. *)
Inductive Call :=
| CALL_BackdoorGetInterface
| CALL_HypervisorPresent
| CALL_HypervisorCPUIDSig
| CALL_LogHypervisorCPUID
| CALL_HypervisorInterfaceSig
| CALL_TouchXen
| CALL_HyperV
| CALL_SynchronizedVTSCs
| CALL_TouchBackDoor
| CALL_NestingSupported
| CALL_VCPUInfoBackdoor (bit : Z)
| CALL_GetNestedBuildNum.

Section Lifetime.

Variable b : Build.
Variable bd : backdoor_def.
Variable cd : x86cpuid_def.
Variable cpuid : Z -> CPUIDRegs.
Variable hypervisor : list Exchange -> Request -> option Response.
Variable ud2a_xen_cpuid : Z -> option CPUIDRegs.

Definition discard {A} (m : M A) : M unit := _ <- m ;; ret tt.

Definition exec (c : Call) : M unit :=
  match c with
  | CALL_BackdoorGetInterface =>
      discard (HostinfoBackdoorGetInterface b cd cpuid)
  | CALL_HypervisorPresent => discard (Hostinfo_HypervisorPresent cd cpuid)
  | CALL_HypervisorCPUIDSig =>
      discard (Hostinfo_HypervisorCPUIDSig b cd cpuid)
  | CALL_LogHypervisorCPUID => Hostinfo_LogHypervisorCPUID b cd cpuid
  | CALL_HypervisorInterfaceSig =>
      discard (Hostinfo_HypervisorInterfaceSig b cd cpuid)
  | CALL_TouchXen => discard (Hostinfo_TouchXen b cd ud2a_xen_cpuid)
  | CALL_HyperV => discard (Hostinfo_HyperV b cd cpuid)
  | CALL_SynchronizedVTSCs =>
      discard (Hostinfo_SynchronizedVTSCs b bd cd cpuid hypervisor)
  | CALL_TouchBackDoor =>
      discard (Hostinfo_TouchBackDoor b bd cd cpuid hypervisor)
  | CALL_NestingSupported =>
      discard (Hostinfo_NestingSupported b bd cd cpuid hypervisor)
  | CALL_VCPUInfoBackdoor bit =>
      discard (Hostinfo_VCPUInfoBackdoor b bd cd cpuid hypervisor bit)
  | CALL_GetNestedBuildNum =>
      discard (Hostinfo_GetNestedBuildNum b bd cd cpuid hypervisor)
  end.

(** A stretch of a process lifetime: calls made one after the other. *)
Fixpoint run (cs : list Call) : M unit :=
  match cs with
  | [] => ret tt
  | c :: cs' => exec c ;; run cs'
  end.

(** The worlds a process can be in. *)
Definition reachable (w : World) : Prop :=
  exists cs, run cs process_start = Returned tt w.

End Lifetime.

(** [n] calls in a row, with the values they returned. *)
Fixpoint call_times {A} (m : M A) (n : nat) : M (list A) :=
  match n with
  | O => ret []
  | S n' => a <- m ;; rest <- call_times m n' ;; ret (a :: rest)
  end.

(** A build that has a backdoor instruction for the queries of lines
    594-735 and 899-1019: Windows, or x86 elsewhere. *)
Definition has_backdoor (b : Build) : bool := _WIN32 b || x86 b.

(** What a call of the selector answers in world [w], and what a call of
    the presence check answers: the cached value once there is one. *)
Definition selector_answer (b : Build) (cd : x86cpuid_def)
  (cpuid : Z -> CPUIDRegs) (w : World) : BackdoorInterface :=
  if USE_HYPERCALL b then
    if BackdoorInterface_eqb (interface w) BACKDOOR_INTERFACE_NONE
    then selector_spec b cd cpuid
    else interface w
  else BACKDOOR_INTERFACE_IO.

Definition presence_answer (cd : x86cpuid_def) (cpuid : Z -> CPUIDRegs)
  (w : World) : bool :=
  if hypervisorPresent w then true else presence_bit cd cpuid.

(** Two worlds that differ at most in the two statics. *)
Definition same_record (w w' : World) : Prop :=
  exchanges w' = exchanges w /\ logged w' = logged w.

(** [m] keeps [P]: whenever it returns from a world where [P] holds, [P]
    holds in the world it returns in. *)
Definition preserves {A} (P : World -> Prop) (m : M A) : Prop :=
  forall w a w', P w -> m w = Returned a w' -> P w'.

(** [P] speaks of the two statics only. *)
Definition on_statics (P : World -> Prop) : Prop :=
  forall w w',
    interface w' = interface w ->
    hypervisorPresent w' = hypervisorPresent w ->
    P w -> P w'.

(** ** Contracts of the feature queries *)

Section Contracts.

Variable b : Build.
Variable bd : backdoor_def.
Variable cd : x86cpuid_def.
Variable cpuid : Z -> CPUIDRegs.
Variable hypervisor : list Exchange -> Request -> option Response.

(** The touch probe as a marker probe: it issues one exchange, the version
    query with the magic in ax and the complement of the magic in bx, and
    whatever the hypervisor answers, it returns true exactly when the low
    32 bits of bx then are the magic; so false when bx is still the
    marker. *)
Definition touch_is_marker_probe (w : World) : Prop :=
  exists rq marker,
    in_ax rq = BDOOR_MAGIC bd
    /\ in_cx rq = BDOOR_CMD_GETVERSION bd
    /\ in_bx rq = Some marker
    /\ to_uint32 marker = to_uint32 (Z.lnot (BDOOR_MAGIC bd))
    /\ forall rs,
         hypervisor (exchanges w) rq = Some rs ->
         exists r w',
           Hostinfo_TouchBackDoor b bd cd cpuid hypervisor w = Returned r w'
           /\ exchanges w' = exchanges w ++ [(rq, rs)]
           /\ (r = true <-> to_uint32 (out_bx rs) = BDOOR_MAGIC bd)
           /\ (out_bx rs = marker -> r = false).

(** The per-VCPU query as a test of the response: it issues one exchange,
    the command [BDOOR_CMD_GET_VCPU_INFO] with the magic in ax, and whatever
    the hypervisor answers, it returns false if the reserved bit of the
    response is set and the bit [bit] of the response if it is clear. *)
Definition vcpu_query_contract (bit : Z) (w : World) : Prop :=
  exists rq,
    in_ax rq = BDOOR_MAGIC bd
    /\ in_cx rq = BDOOR_CMD_GET_VCPU_INFO bd
    /\ forall rs,
         hypervisor (exchanges w) rq = Some rs ->
         let result := to_uint32 (out_ax rs) in
         exists r w',
           Hostinfo_VCPUInfoBackdoor b bd cd cpuid hypervisor bit w
           = Returned r w'
           /\ exchanges w' = exchanges w ++ [(rq, rs)]
           /\ (Z.testbit result (BDOOR_CMD_VCPU_RESERVED bd) = true ->
               r = false)
           /\ (Z.testbit result (BDOOR_CMD_VCPU_RESERVED bd) = false ->
               r = Z.testbit result bit).

End Contracts.

(** ** Scenarios *)

Definition linux_x86_64 : Build := {|
  _WIN32 := false; _WIN64 := false; __linux__ := true; __GNUC__ := true;
  GCC_VERSION := 90400; __i386__ := false; __x86_64__ := true;
  __aarch64__ := false
|}.

(** gcc 4.8.3 is not newer than 4.8.3. *)
Definition linux_x86_64_old_gcc : Build := {|
  _WIN32 := false; _WIN64 := false; __linux__ := true; __GNUC__ := true;
  GCC_VERSION := 40803; __i386__ := false; __x86_64__ := true;
  __aarch64__ := false
|}.

Definition windows_x64 : Build := {|
  _WIN32 := true; _WIN64 := true; __linux__ := false; __GNUC__ := false;
  GCC_VERSION := 0; __i386__ := false; __x86_64__ := true;
  __aarch64__ := false
|}.

Definition linux_aarch64 : Build := {|
  _WIN32 := false; _WIN64 := false; __linux__ := true; __GNUC__ := true;
  GCC_VERSION := 90400; __i386__ := false; __x86_64__ := false;
  __aarch64__ := true
|}.

Definition no_regs : CPUIDRegs := {| eax := 0; ebx := 0; ecx := 0; edx := 0 |}.

(** A processor under a VMware hypervisor: presence bit, the vendor
    string VMwareVMware, a maximum leaf of 0x40000010 and the given
    capability bits in ecx of the feature leaf. *)
Definition cpuid_vmware (capabilities : Z) (leaf : Z) : CPUIDRegs :=
  if leaf =? 1 then
    {| eax := 0x000906EA; ebx := 0; ecx := 0x80000000; edx := 0 |}
  else if leaf =? 0x40000000 then
    {| eax := 0x40000010; ebx := 0x61774D56; ecx := 0x4D566572;
       edx := 0x65726177 |}
  else if leaf =? 0x40000010 then
    {| eax := 2400000; ebx := 66000; ecx := capabilities; edx := 0 |}
  else no_regs.

(** A processor under a hypervisor that hides its identity: the presence
    bit and nothing in the hypervisor leaves. *)
Definition cpuid_anonymous (leaf : Z) : CPUIDRegs :=
  if leaf =? 1 then
    {| eax := 0x000906EA; ebx := 0; ecx := 0x80000000; edx := 0 |}
  else if leaf =? 0x40000000 then
    {| eax := 0; ebx := 0x11111111; ecx := 0x22222222; edx := 0x33333333 |}
  else no_regs.

(** A processor under a hypervisor with an interface leaf: revision
    "Hv#1". *)
Definition cpuid_with_interface (leaf : Z) : CPUIDRegs :=
  if leaf =? 1 then
    {| eax := 0x000906EA; ebx := 0; ecx := 0x80000000; edx := 0 |}
  else if leaf =? 0x40000000 then
    {| eax := 0x40000006; ebx := 0x7263694D; ecx := 0x666F736F;
       edx := 0x76482074 |}
  else if leaf =? 0x40000001 then
    {| eax := 0x31237648; ebx := 0; ecx := 0; edx := 0 |}
  else no_regs.

(** No hypervisor at all. *)
Definition cpuid_native (leaf : Z) : CPUIDRegs :=
  if leaf =? 1 then
    {| eax := 0x000906EA; ebx := 0; ecx := 0; edx := 0 |}
  else no_regs.

(** A hypervisor that answers every exchange with the magic in bx and
    [answer] in ax. *)
Definition hypervisor_answering (answer : Z)
  (_ : list Exchange) (_ : Request) : option Response :=
  Some {| out_ax := answer; out_bx := 0x564D5868; out_cx := 0 |}.

(** The instruction completes and changes no register. *)
Definition hypervisor_silent (_ : list Exchange) (rq : Request)
  : option Response :=
  Some {| out_ax := in_ax rq;
          out_bx := match in_bx rq with Some m => m | None => 0 end;
          out_cx := in_cx rq |}.

(** Every backdoor instruction raises an exception. *)
Definition no_hypervisor (_ : list Exchange) (_ : Request)
  : option Response := None.

(** Xen answers the trap sequence with XenVMMXenVMM. *)
Definition xen_answers (_ : Z) : option CPUIDRegs :=
  Some {| eax := 0x40000005; ebx := 0x566E6558; ecx := 0x65584D4D;
          edx := 0x4D4D566E |}.

(** Something traps the sequence and answers XenVMMXenVMX. *)
Definition xen_variant_answers (_ : Z) : option CPUIDRegs :=
  Some {| eax := 0x40000005; ebx := 0x566E6558; ecx := 0x65584D4D;
          edx := 0x584D566E |}.

(** The sequence raises #UD. *)
Definition no_xen (_ : Z) : option CPUIDRegs := None.

(** ** Properties *)

(** The monad's equations, for rewriting. *)
Lemma bind_ret_l {A B} (a : A) (k : A -> M B) (w : World) :
  bind (ret a) k w = k a w.
Proof. reflexivity. Qed.

Lemma bind_returned {A B} (m : M A) (k : A -> M B) (w w' : World) (a : A) :
  m w = Returned a w' -> bind m k w = k a w'.
Proof. intros E. unfold bind. rewrite E. reflexivity. Qed.

Lemma bind_assoc {A B C} (m : M A) (f : A -> M B) (g : B -> M C) (w : World) :
  bind (bind m f) g w = bind m (fun a => bind (f a) g) w.
Proof. unfold bind. destruct (m w); reflexivity. Qed.


Lemma BackdoorInterface_eqb_eq (x y : BackdoorInterface) :
  BackdoorInterface_eqb x y = true <-> x = y.
Proof. destruct x, y; simpl; split; congruence. Qed.

Section Statics.

Variable b : Build.
Variable cd : x86cpuid_def.
Variable cpuid : Z -> CPUIDRegs.

(** The selector always returns; it answers [selector_answer], stores the
    answer when fast calls are compiled in, and touches nothing else. *)
Lemma HostinfoBackdoorGetInterface_returns (w : World) :
  exists w',
    HostinfoBackdoorGetInterface b cd cpuid w
    = Returned (selector_answer b cd cpuid w) w'
    /\ interface w'
       = (if USE_HYPERCALL b then selector_answer b cd cpuid w
          else interface w)
    /\ hypervisorPresent w' = hypervisorPresent w
    /\ same_record w w'.
Proof.
  unfold HostinfoBackdoorGetInterface, selector_answer, selector_spec,
    same_record.
  destruct (USE_HYPERCALL b) eqn:EU.
  2:{ exists w. repeat split; reflexivity. }
  unfold bind at 1. unfold get_interface at 1.
  destruct (BackdoorInterface_eqb (interface w) BACKDOOR_INTERFACE_NONE)
    eqn:EI.
  2:{ exists w. simpl. repeat split; reflexivity. }
  apply BackdoorInterface_eqb_eq in EI.
  simpl andb.
  destruct (x86 b) eqn:EX; simpl negb; cbv iota.
  2:{ eexists. simpl. unfold bind, set_interface, get_interface. simpl.
      repeat split; reflexivity. }
  unfold presence_bit, vendor_matches, feature_leaf_available, vmcall_bit,
    vmmcall_bit, __GET_EAX_FROM_CPUID, __GET_ECX_FROM_CPUID.
  unfold when at 1.
  destruct (CPUID_ISSET (CPUID_HYPERVISOR_MASK cd) _); simpl negb; cbv iota;
    [ destruct (CPUID_IsRawVendor _ _); simpl negb; cbv iota;
      [ destruct (_ <=? _); simpl negb; cbv iota;
        [ destruct (CPUID_ISSET (CPUID_VMCALL_BACKDOOR_MASK cd) _);
          [ | destruct (CPUID_ISSET (CPUID_VMMCALL_BACKDOOR_MASK cd) _) ]
        | ]
      | ]
    | ];
    unfold when, bind, set_interface, get_interface, ret; simpl;
    rewrite ?EI; simpl; eexists; repeat split; reflexivity.
Qed.

(** The presence check always returns [presence_answer]; it may set its
    static and touches nothing else. *)
Lemma Hostinfo_HypervisorPresent_returns (w : World) :
  exists w',
    Hostinfo_HypervisorPresent cd cpuid w
    = Returned (presence_answer cd cpuid w) w'
    /\ hypervisorPresent w' = presence_answer cd cpuid w
    /\ interface w' = interface w
    /\ same_record w w'.
Proof.
  unfold Hostinfo_HypervisorPresent, presence_answer, presence_bit,
    same_record, bind, get_hypervisorPresent, when, set_hypervisorPresent,
    ret.
  destruct (hypervisorPresent w) eqn:EP; simpl; rewrite ?EP;
    eexists; repeat split; try reflexivity; assumption.
Qed.

End Statics.

(** *** Invariants of a process lifetime *)

Lemma preserves_ret {A} (P : World -> Prop) (a : A) : preserves P (ret a).
Proof. intros w a' w' H E. inversion E; subst; assumption. Qed.

Lemma preserves_bind {A B} (P : World -> Prop) (m : M A) (k : A -> M B) :
  preserves P m -> (forall a, preserves P (k a)) -> preserves P (bind m k).
Proof.
  intros Hm Hk w r w' HP E. unfold bind in E.
  destruct (m w) as [a w1 | | ] eqn:Em; try discriminate.
  eapply Hk; [ eapply Hm; eassumption | eassumption ].
Qed.

Lemma preserves_when (P : World -> Prop) (c : bool) (m : M unit) :
  preserves P m -> preserves P (when c m).
Proof. destruct c; simpl; [ trivial | intros _; apply preserves_ret ]. Qed.

Lemma preserves_discard {A} (P : World -> Prop) (m : M A) :
  preserves P m -> preserves P (discard m).
Proof.
  intros H. apply preserves_bind; [ exact H | intros; apply preserves_ret ].
Qed.

Lemma preserves_stuck {A} (P : World -> Prop) (m : M A) :
  (forall w a w', m w <> Returned a w') -> preserves P m.
Proof. intros H w a w' _ E. destruct (H _ _ _ E). Qed.

Lemma preserves_defined {A} (P : World -> Prop) (o : option A) :
  preserves P (defined o).
Proof.
  destruct o; simpl; [ apply preserves_ret | ].
  apply preserves_stuck; discriminate.
Qed.

Lemma preserves_Log (P : World -> Prop) (m : LogMsg) :
  on_statics P -> preserves P (Log m).
Proof.
  intros HS w a w' HP E. inversion E; subst.
  eapply HS; [ | | exact HP ]; reflexivity.
Qed.

Lemma preserves_backdoor (P : World -> Prop) hypervisor (rq : Request) :
  on_statics P -> preserves P (backdoor hypervisor rq).
Proof.
  intros HS w a w' HP E. unfold backdoor in E.
  destruct (hypervisor (exchanges w) rq); inversion E; subst.
  eapply HS; [ | | exact HP ]; reflexivity.
Qed.

Ltac preserve_step :=
  match goal with
  | |- preserves _ (bind _ _) => apply preserves_bind; [ | intros ]
  | |- preserves _ (ret _) => apply preserves_ret
  | |- preserves _ (when _ _) => apply preserves_when
  | |- preserves _ (discard _) => apply preserves_discard
  | |- preserves _ (Log _) => apply preserves_Log; assumption
  | |- preserves _ (backdoor _ _) => apply preserves_backdoor; assumption
  | |- preserves _ (defined _) => apply preserves_defined
  | |- preserves _ (fun _ => Faulted) => apply preserves_stuck; discriminate
  | |- preserves _ (HostinfoBackdoorGetInterface _ _ _) => assumption
  | |- preserves _ (Hostinfo_HypervisorPresent _ _) => assumption
  | |- preserves _ (if ?c then _ else _) => destruct c
  | |- preserves _ (match ?x with _ => _ end) => destruct x
  end.

Section Invariants.

Variable b : Build.
Variable bd : backdoor_def.
Variable cd : x86cpuid_def.
Variable cpuid : Z -> CPUIDRegs.
Variable hypervisor : list Exchange -> Request -> option Response.
Variable ud2a_xen_cpuid : Z -> option CPUIDRegs.

Variable P : World -> Prop.
Hypothesis P_statics : on_statics P.
Hypothesis P_selector : preserves P (HostinfoBackdoorGetInterface b cd cpuid).
Hypothesis P_presence : preserves P (Hostinfo_HypervisorPresent cd cpuid).

Lemma log_leaves_preserves (n : nat) (leafId : Z) :
  preserves P (log_leaves cpuid leafId n).
Proof.
  revert leafId. induction n as [ | n IH]; intros leafId; simpl.
  - apply preserves_ret.
  - apply preserves_bind; [ apply preserves_Log; assumption | ].
    intros _. apply IH.
Qed.

(** Whatever holds of the statics and is kept by the two functions that
    write them is kept by every entry point. *)
Lemma exec_preserves (c : Call) :
  preserves P (exec b bd cd cpuid hypervisor ud2a_xen_cpuid c).
Proof.
  destruct c; simpl;
    unfold Hostinfo_HypervisorCPUIDSig, Hostinfo_LogHypervisorCPUID,
      Hostinfo_HypervisorInterfaceSig, Hostinfo_TouchXen, Hostinfo_HyperV,
      Hostinfo_SynchronizedVTSCs, Hostinfo_TouchBackDoor,
      Hostinfo_NestingSupported, Hostinfo_VCPUInfoBackdoor,
      Hostinfo_GetNestedBuildNum, Hostinfo_HypervisorCPUIDSig,
      Hostinfo_TouchBackDoor_win, Hostinfo_TouchBackDoor_posix,
      Hostinfo_NestingSupported_win, Hostinfo_NestingSupported_posix,
      Hostinfo_VCPUInfoBackdoor_win, Hostinfo_VCPUInfoBackdoor_posix,
      Hostinfo_GetNestedBuildNum_win, Hostinfo_GetNestedBuildNum_posix,
      Hostinfo_BackdoorInOut, vcpu_info_test, Vmcall, Vmmcall, Ioportcall;
    cbv zeta;
    repeat first [ apply log_leaves_preserves | preserve_step ].
Qed.

Lemma run_preserves (cs : list Call) :
  preserves P (run b bd cd cpuid hypervisor ud2a_xen_cpuid cs).
Proof.
  induction cs as [ | c cs IH]; simpl.
  - apply preserves_ret.
  - apply preserves_bind; [ apply exec_preserves | intros _; exact IH ].
Qed.

End Invariants.

(** *** The cached answers never change *)

Section Caches.

Variable b : Build.
Variable bd : backdoor_def.
Variable cd : x86cpuid_def.
Variable cpuid : Z -> CPUIDRegs.
Variable hypervisor : list Exchange -> Request -> option Response.
Variable ud2a_xen_cpuid : Z -> option CPUIDRegs.

Lemma selector_spec_determined :
  selector_spec b cd cpuid <> BACKDOOR_INTERFACE_NONE.
Proof.
  unfold selector_spec.
  repeat match goal with
         | |- context [if ?c then _ else _] => destruct c
         end; discriminate.
Qed.

Lemma selector_answer_determined (w : World) :
  selector_answer b cd cpuid w <> BACKDOOR_INTERFACE_NONE.
Proof.
  unfold selector_answer.
  destruct (USE_HYPERCALL b); [ | discriminate ].
  destruct (BackdoorInterface_eqb _ _) eqn:E.
  - apply selector_spec_determined.
  - intros H. rewrite H in E. discriminate.
Qed.

(** Storing the answer does not change the answer. *)
Lemma selector_answer_stored (w w' : World) :
  interface w'
  = (if USE_HYPERCALL b then selector_answer b cd cpuid w else interface w) ->
  selector_answer b cd cpuid w' = selector_answer b cd cpuid w.
Proof.
  intros H. unfold selector_answer at 1. rewrite H.
  pose proof (selector_answer_determined w) as ND.
  unfold selector_answer in *.
  destruct (USE_HYPERCALL b); [ | reflexivity ].
  destruct (BackdoorInterface_eqb
              (if BackdoorInterface_eqb (interface w) BACKDOOR_INTERFACE_NONE
               then selector_spec b cd cpuid else interface w)
              BACKDOOR_INTERFACE_NONE) eqn:E; [ | reflexivity ].
  apply BackdoorInterface_eqb_eq in E. contradiction.
Qed.

Lemma presence_answer_stored (w w' : World) :
  hypervisorPresent w' = presence_answer cd cpuid w ->
  presence_answer cd cpuid w' = presence_answer cd cpuid w.
Proof.
  intros H. unfold presence_answer at 1. rewrite H.
  unfold presence_answer.
  destruct (hypervisorPresent w); [ reflexivity | ].
  destruct (presence_bit cd cpuid); reflexivity.
Qed.

Lemma selector_answer_on_statics (i : BackdoorInterface) :
  on_statics (fun w => selector_answer b cd cpuid w = i).
Proof.
  intros w w' Hi _ H. unfold selector_answer in *. rewrite Hi. exact H.
Qed.

Lemma presence_answer_on_statics (p : bool) :
  on_statics (fun w => presence_answer cd cpuid w = p).
Proof.
  intros w w' _ Hp H. unfold presence_answer in *. rewrite Hp. exact H.
Qed.

Lemma selector_keeps_selector_answer (i : BackdoorInterface) :
  preserves (fun w => selector_answer b cd cpuid w = i)
    (HostinfoBackdoorGetInterface b cd cpuid).
Proof.
  intros w a w' H E.
  destruct (HostinfoBackdoorGetInterface_returns b cd cpuid w)
    as (w1 & E1 & Hi & _ & _).
  rewrite E1 in E. inversion E; subst.
  rewrite (selector_answer_stored w w'); [ reflexivity | exact Hi ].
Qed.

Lemma presence_keeps_selector_answer (i : BackdoorInterface) :
  preserves (fun w => selector_answer b cd cpuid w = i)
    (Hostinfo_HypervisorPresent cd cpuid).
Proof.
  intros w a w' H E.
  destruct (Hostinfo_HypervisorPresent_returns cd cpuid w)
    as (w1 & E1 & _ & Hi & _).
  rewrite E1 in E. inversion E; subst.
  unfold selector_answer in *. rewrite Hi. reflexivity.
Qed.

Lemma selector_keeps_presence_answer (p : bool) :
  preserves (fun w => presence_answer cd cpuid w = p)
    (HostinfoBackdoorGetInterface b cd cpuid).
Proof.
  intros w a w' H E.
  destruct (HostinfoBackdoorGetInterface_returns b cd cpuid w)
    as (w1 & E1 & _ & Hp & _).
  rewrite E1 in E. inversion E; subst.
  unfold presence_answer in *. rewrite Hp. reflexivity.
Qed.

Lemma presence_keeps_presence_answer (p : bool) :
  preserves (fun w => presence_answer cd cpuid w = p)
    (Hostinfo_HypervisorPresent cd cpuid).
Proof.
  intros w a w' H E.
  destruct (Hostinfo_HypervisorPresent_returns cd cpuid w)
    as (w1 & E1 & Hp & _ & _).
  rewrite E1 in E. inversion E; subst.
  rewrite (presence_answer_stored w w'); [ reflexivity | exact Hp ].
Qed.

(** Over any stretch of a process lifetime both answers stay what they
    were. *)
Lemma run_keeps_answers (cs : list Call) (w w' : World) :
  run b bd cd cpuid hypervisor ud2a_xen_cpuid cs w = Returned tt w' ->
  selector_answer b cd cpuid w' = selector_answer b cd cpuid w
  /\ presence_answer cd cpuid w' = presence_answer cd cpuid w.
Proof.
  intros E. split.
  - eapply (run_preserves b bd cd cpuid hypervisor ud2a_xen_cpuid
              (fun x => selector_answer b cd cpuid x
                        = selector_answer b cd cpuid w)).
    + apply selector_answer_on_statics.
    + apply selector_keeps_selector_answer.
    + apply presence_keeps_selector_answer.
    + reflexivity.
    + exact E.
  - eapply (run_preserves b bd cd cpuid hypervisor ud2a_xen_cpuid
              (fun x => presence_answer cd cpuid x
                        = presence_answer cd cpuid w)).
    + apply presence_answer_on_statics.
    + apply selector_keeps_presence_answer.
    + apply presence_keeps_presence_answer.
    + reflexivity.
    + exact E.
Qed.

Lemma call_times_selector (n : nat) (w : World) :
  exists w',
    call_times (HostinfoBackdoorGetInterface b cd cpuid) n w
    = Returned (repeat (selector_answer b cd cpuid w) n) w'.
Proof.
  revert w. induction n as [ | n IH]; intros w; simpl.
  - exists w. reflexivity.
  - destruct (HostinfoBackdoorGetInterface_returns b cd cpuid w)
      as (w1 & E1 & Hi & _ & _).
    destruct (IH w1) as (w2 & E2).
    exists w2. unfold bind. rewrite E1, E2.
    rewrite (selector_answer_stored w w1 Hi). reflexivity.
Qed.

Lemma call_times_presence (n : nat) (w : World) :
  exists w',
    call_times (Hostinfo_HypervisorPresent cd cpuid) n w
    = Returned (repeat (presence_answer cd cpuid w) n) w'.
Proof.
  revert w. induction n as [ | n IH]; intros w; simpl.
  - exists w. reflexivity.
  - destruct (Hostinfo_HypervisorPresent_returns cd cpuid w)
      as (w1 & E1 & Hp & _ & _).
    destruct (IH w1) as (w2 & E2).
    exists w2. unfold bind. rewrite E1, E2.
    rewrite (presence_answer_stored w w1 Hp). reflexivity.
Qed.

(** C6. Within a process lifetime, [n] calls in a row of
    [Hostinfo_HypervisorPresent], or of [HostinfoBackdoorGetInterface],
    return [n] times the same value, whatever the world they start in; and
    the answers are monotone: once the presence check has returned true, or
    the selector has returned an interface, the same function returns that
    same answer after any further calls of any entry points of the file. *)
Theorem cached_answers_idempotent_and_monotone (w : World) :
  (exists v, forall n, exists w',
      call_times (Hostinfo_HypervisorPresent cd cpuid) n w
      = Returned (repeat v n) w')
  /\ (exists v, forall n, exists w',
         call_times (HostinfoBackdoorGetInterface b cd cpuid) n w
         = Returned (repeat v n) w')
  /\ (forall w0 cs w1,
         Hostinfo_HypervisorPresent cd cpuid w = Returned true w0 ->
         run b bd cd cpuid hypervisor ud2a_xen_cpuid cs w0 = Returned tt w1 ->
         exists w2,
           Hostinfo_HypervisorPresent cd cpuid w1 = Returned true w2
           /\ hypervisorPresent w2 = true)
  /\ (forall i w0 cs w1,
         HostinfoBackdoorGetInterface b cd cpuid w = Returned i w0 ->
         run b bd cd cpuid hypervisor ud2a_xen_cpuid cs w0 = Returned tt w1 ->
         i <> BACKDOOR_INTERFACE_NONE
         /\ exists w2,
             HostinfoBackdoorGetInterface b cd cpuid w1 = Returned i w2).
Proof.
  split; [ | split; [ | split ] ].
  - exists (presence_answer cd cpuid w). intros n.
    apply call_times_presence.
  - exists (selector_answer b cd cpuid w). intros n.
    apply call_times_selector.
  - intros w0 cs w1 E0 Er.
    destruct (Hostinfo_HypervisorPresent_returns cd cpuid w)
      as (wa & Ea & Hp & _ & _).
    rewrite Ea in E0. inversion E0 as [[Ht Hw]]. subst wa.
    destruct (run_keeps_answers cs w0 w1 Er) as (_ & Hr).
    rewrite (presence_answer_stored w w0 Hp) in Hr.
    destruct (Hostinfo_HypervisorPresent_returns cd cpuid w1)
      as (w2 & E2 & Hp2 & _ & _).
    exists w2. rewrite E2, Hp2, Hr, Ht. split; reflexivity.
  - intros i w0 cs w1 E0 Er.
    destruct (HostinfoBackdoorGetInterface_returns b cd cpuid w)
      as (wa & Ea & Hi & _ & _).
    rewrite Ea in E0. inversion E0 as [[Ht Hw]]. subst wa.
    split; [ apply selector_answer_determined | ].
    destruct (run_keeps_answers cs w0 w1 Er) as (Hr & _).
    rewrite (selector_answer_stored w w0 Hi) in Hr.
    destruct (HostinfoBackdoorGetInterface_returns b cd cpuid w1)
      as (w2 & E2 & _).
    exists w2. rewrite E2, Hr. reflexivity.
Qed.

End Caches.

(** *** The statics hold what the processor says *)

Section Consistency.

Variable b : Build.
Variable bd : backdoor_def.
Variable cd : x86cpuid_def.
Variable cpuid : Z -> CPUIDRegs.
Variable hypervisor : list Exchange -> Request -> option Response.
Variable ud2a_xen_cpuid : Z -> option CPUIDRegs.

Lemma consistent_on_statics : on_statics (consistent b cd cpuid).
Proof.
  intros w w' Hi Hp [H1 H2]. unfold consistent. rewrite Hi, Hp. tauto.
Qed.

Lemma selector_keeps_consistent :
  preserves (consistent b cd cpuid) (HostinfoBackdoorGetInterface b cd cpuid).
Proof.
  intros w a w' [H1 H2] E.
  destruct (HostinfoBackdoorGetInterface_returns b cd cpuid w)
    as (w1 & E1 & Hi & Hp & _).
  rewrite E1 in E. inversion E; subst. clear E.
  unfold consistent. rewrite Hi, Hp. split; [ exact H1 | ].
  unfold selector_answer.
  destruct (USE_HYPERCALL b); [ | exact H2 ].
  destruct (BackdoorInterface_eqb _ _); [ right; reflexivity | exact H2 ].
Qed.

Lemma presence_keeps_consistent :
  preserves (consistent b cd cpuid) (Hostinfo_HypervisorPresent cd cpuid).
Proof.
  intros w a w' [H1 H2] E.
  destruct (Hostinfo_HypervisorPresent_returns cd cpuid w)
    as (w1 & E1 & Hp & Hi & _).
  rewrite E1 in E. inversion E; subst. clear E.
  unfold consistent. rewrite Hi, Hp. split; [ | exact H2 ].
  unfold presence_answer. destruct (hypervisorPresent w); auto.
Qed.

Lemma process_start_consistent : consistent b cd cpuid process_start.
Proof. split; simpl; [ discriminate | left; reflexivity ]. Qed.

Lemma reachable_consistent (w : World) :
  reachable b bd cd cpuid hypervisor ud2a_xen_cpuid w ->
  consistent b cd cpuid w.
Proof.
  intros (cs & E).
  eapply (run_preserves b bd cd cpuid hypervisor ud2a_xen_cpuid
            (consistent b cd cpuid)).
  - apply consistent_on_statics.
  - apply selector_keeps_consistent.
  - apply presence_keeps_consistent.
  - apply process_start_consistent.
  - exact E.
Qed.

(** In a consistent world the selector answers what section 4.3
    prescribes, and the presence check answers the presence bit. *)
Lemma consistent_selector_answer (w : World) :
  consistent b cd cpuid w ->
  selector_answer b cd cpuid w = selector_spec b cd cpuid.
Proof.
  intros [_ H]. unfold selector_answer.
  destruct (USE_HYPERCALL b) eqn:EU.
  - destruct H as [H | H]; rewrite H.
    + reflexivity.
    + destruct (BackdoorInterface_eqb _ _); reflexivity.
  - unfold selector_spec. rewrite EU. reflexivity.
Qed.

Lemma consistent_presence_answer (w : World) :
  consistent b cd cpuid w ->
  presence_answer cd cpuid w = presence_bit cd cpuid.
Proof.
  intros [H _]. unfold presence_answer.
  destruct (hypervisorPresent w); [ symmetry; auto | reflexivity ].
Qed.

(** C1. At any point of any process lifetime a call of
    [HostinfoBackdoorGetInterface] returns, and what it returns is one of
    VMCALL, VMMCALL and IO, never NONE.  Without [USE_HYPERCALL] it is IO.
    With it, it is IO whenever the presence bit is unset, the vendor string
    does not match, the feature leaf is not available or neither capability
    bit is set; and where none of these holds it is VMCALL if the VMCALL bit
    is set, whatever the VMMCALL bit, and VMMCALL if only the VMMCALL bit
    is. *)
Theorem selector_returns_a_usable_interface (w : World) :
  reachable b bd cd cpuid hypervisor ud2a_xen_cpuid w ->
  exists i w',
    HostinfoBackdoorGetInterface b cd cpuid w = Returned i w'
    /\ i <> BACKDOOR_INTERFACE_NONE
    /\ (i = BACKDOOR_INTERFACE_VMCALL \/ i = BACKDOOR_INTERFACE_VMMCALL
        \/ i = BACKDOOR_INTERFACE_IO)
    /\ (USE_HYPERCALL b = false -> i = BACKDOOR_INTERFACE_IO)
    /\ (USE_HYPERCALL b = true ->
        presence_bit cd cpuid = false
        \/ vendor_matches cd cpuid = false
        \/ feature_leaf_available cd cpuid = false
        \/ (vmcall_bit cd cpuid = false /\ vmmcall_bit cd cpuid = false) ->
        i = BACKDOOR_INTERFACE_IO)
    /\ (USE_HYPERCALL b = true -> x86 b = true ->
        presence_bit cd cpuid = true ->
        vendor_matches cd cpuid = true ->
        feature_leaf_available cd cpuid = true ->
        (vmcall_bit cd cpuid = true -> i = BACKDOOR_INTERFACE_VMCALL)
        /\ (vmcall_bit cd cpuid = false -> vmmcall_bit cd cpuid = true ->
            i = BACKDOOR_INTERFACE_VMMCALL)).
Proof.
  intros R.
  pose proof (consistent_selector_answer w (reachable_consistent w R)) as A.
  destruct (HostinfoBackdoorGetInterface_returns b cd cpuid w)
    as (w' & E & _).
  exists (selector_answer b cd cpuid w), w'.
  split; [ exact E | ].
  split; [ apply selector_answer_determined | ].
  rewrite A. unfold selector_spec.
  split.
  { repeat match goal with
           | |- context [if ?c then _ else _] => destruct c
           end; auto. }
  split.
  { intros EU. rewrite EU. reflexivity. }
  split.
  { intros EU Hc. rewrite EU.
    destruct (x86 b); simpl; [ | reflexivity ].
    destruct (presence_bit cd cpuid), (vendor_matches cd cpuid),
      (feature_leaf_available cd cpuid), (vmcall_bit cd cpuid),
      (vmmcall_bit cd cpuid); simpl; try reflexivity;
      intuition discriminate. }
  intros EU EX Hp Hv Hf. rewrite EU, EX, Hp, Hv, Hf. simpl.
  split.
  - intros H. rewrite H. reflexivity.
  - intros H1 H2. rewrite H1, H2. reflexivity.
Qed.

End Consistency.

(** *** Signature buffers *)

Lemma chars_of_words_length (ws : list Z) :
  List.length (chars_of_words ws) = (4 * List.length ws)%nat.
Proof.
  unfold chars_of_words. induction ws as [ | x ws IH]; simpl.
  - reflexivity.
  - rewrite IH. lia.
Qed.

Lemma chars_of_words_app (ws1 ws2 : list Z) :
  chars_of_words (ws1 ++ ws2) = chars_of_words ws1 ++ chars_of_words ws2.
Proof. unfold chars_of_words. apply flat_map_app. Qed.

Lemma c_string_stops_at_nul (p q : list Z) :
  (List.length (c_string (p ++ 0%Z :: q)) <= List.length p)%nat.
Proof.
  induction p as [ | c p IH]; simpl.
  - lia.
  - destruct (c =? 0); simpl; lia.
Qed.

(** A buffer of words whose last word is zero: its size, its last four
    bytes, and the end of the string it holds. *)
Lemma zero_terminated_words (fields : list Z) :
  let buf := chars_of_words (fields ++ [0]) in
  List.length buf = (4 * (List.length fields + 1))%nat
  /\ skipn (4 * List.length fields) buf = [0; 0; 0; 0]
  /\ (List.length (c_string buf) < List.length buf)%nat.
Proof.
  cbv zeta. rewrite chars_of_words_app.
  change (chars_of_words [0]) with [0; 0; 0; 0].
  pose proof (chars_of_words_length fields) as L.
  repeat split.
  - rewrite length_app, L. simpl. lia.
  - rewrite <- L. rewrite skipn_app, skipn_all, Nat.sub_diag. reflexivity.
  - pose proof (c_string_stops_at_nul (chars_of_words fields) [0; 0; 0]).
    rewrite length_app. simpl List.length. lia.
Qed.

Section Signatures.

Variable b : Build.
Variable bd : backdoor_def.
Variable cd : x86cpuid_def.
Variable cpuid : Z -> CPUIDRegs.
Variable hypervisor : list Exchange -> Request -> option Response.
Variable ud2a_xen_cpuid : Z -> option CPUIDRegs.

(** What [Hostinfo_HypervisorCPUIDSig] does on x86, case by case. *)
Lemma Hostinfo_HypervisorCPUIDSig_x86 (w : World) :
  x86 b = true ->
  let regs := __GET_CPUID cpuid 0x40000000 in
  exists w',
    Hostinfo_HypervisorCPUIDSig b cd cpuid w
    = Returned
        (if presence_answer cd cpuid w
         then Some (chars_of_words [ebx regs; ecx regs; edx regs; 0])
         else None) w'
    /\ logged w'
       = logged w
         ++ (if presence_answer cd cpuid w && (eax regs <? 0x40000000)
             then [LOG_NO_VENDOR_SIGNATURE] else [])
    /\ exchanges w' = exchanges w.
Proof.
  intros EX regs. unfold Hostinfo_HypervisorCPUIDSig. rewrite EX.
  destruct (Hostinfo_HypervisorPresent_returns cd cpuid w)
    as (w1 & E1 & _ & _ & He & Hl).
  rewrite (bind_returned _ _ _ _ _ E1).
  destruct (presence_answer cd cpuid w); simpl negb; cbv iota.
  - fold regs. unfold bind, when, Log, ret.
    destruct (eax regs <? 0x40000000); cbn [andb]; eexists;
      (split; [ reflexivity | ]); cbn [logged exchanges];
      rewrite Hl, ?app_nil_r; auto.
  - exists w1. unfold ret. cbn [andb]. rewrite Hl, app_nil_r. auto.
Qed.

(** What [Hostinfo_HypervisorInterfaceSig] does on x86, case by case. *)
Lemma Hostinfo_HypervisorInterfaceSig_x86 (w : World) :
  x86 b = true ->
  let max := eax (__GET_CPUID cpuid 0x40000000) in
  let rev := eax (__GET_CPUID cpuid 0x40000001) in
  exists w',
    Hostinfo_HypervisorInterfaceSig b cd cpuid w
    = Returned
        (if presence_answer cd cpuid w && (0x40000001 <=? max)
            && negb (rev =? 0)
         then Some (chars_of_words [rev; 0])
         else None) w'
    /\ logged w'
       = logged w
         ++ (if presence_answer cd cpuid w && (max <? 0x40000001)
             then [LOG_NO_INTERFACE_SIGNATURE] else []).
Proof.
  intros EX max rev. unfold Hostinfo_HypervisorInterfaceSig. rewrite EX.
  destruct (Hostinfo_HypervisorPresent_returns cd cpuid w)
    as (w1 & E1 & _ & _ & He & Hl).
  rewrite (bind_returned _ _ _ _ _ E1).
  destruct (presence_answer cd cpuid w); simpl negb; cbv iota; cbn [andb].
  - fold max. rewrite (Z.leb_antisym max 0x40000001).
    destruct (max <? 0x40000001); simpl negb; cbv iota; cbn [andb].
    + unfold bind, Log, ret. eexists. split; [ reflexivity | ].
      cbn [logged]. rewrite Hl. reflexivity.
    + fold rev. destruct (rev =? 0); simpl negb; cbv iota; exists w1;
        unfold ret; rewrite Hl, app_nil_r; auto.
  - exists w1. unfold ret. rewrite Hl, app_nil_r. auto.
Qed.

(** Neither reader returns a buffer when the file is not compiled for
    x86. *)
Lemma signature_readers_elsewhere (w : World) :
  x86 b = false ->
  Hostinfo_HypervisorCPUIDSig b cd cpuid w = Returned None w
  /\ Hostinfo_HypervisorInterfaceSig b cd cpuid w = Returned None w.
Proof.
  intros EX.
  unfold Hostinfo_HypervisorCPUIDSig, Hostinfo_HypervisorInterfaceSig.
  rewrite EX. split; reflexivity.
Qed.

(** C5. A buffer returned by [Hostinfo_HypervisorCPUIDSig] is 4 words, 16
    bytes, one returned by [Hostinfo_HypervisorInterfaceSig] is 2 words, 8
    bytes; in both the last word is zero, so that the last four bytes are
    nul and the string the buffer holds ends inside the buffer. *)
Theorem signature_buffers_are_nul_terminated (w w' : World) (buf : list Z) :
  (Hostinfo_HypervisorCPUIDSig b cd cpuid w = Returned (Some buf) w' ->
   (exists fields,
       buf = chars_of_words (fields ++ [0]) /\ List.length fields = 3%nat)
   /\ List.length buf = 16%nat
   /\ skipn 12 buf = [0; 0; 0; 0]
   /\ (List.length (c_string buf) < 16)%nat)
  /\ (Hostinfo_HypervisorInterfaceSig b cd cpuid w = Returned (Some buf) w' ->
      (exists fields,
          buf = chars_of_words (fields ++ [0]) /\ List.length fields = 1%nat)
      /\ List.length buf = 8%nat
      /\ skipn 4 buf = [0; 0; 0; 0]
      /\ (List.length (c_string buf) < 8)%nat).
Proof.
  destruct (x86 b) eqn:EX.
  2:{ destruct (signature_readers_elsewhere w EX) as [E1 E2].
      rewrite E1, E2. split; discriminate. }
  split; intros E.
  - destruct (Hostinfo_HypervisorCPUIDSig_x86 w EX) as (w1 & E1 & _).
    rewrite E1 in E. clear E1.
    destruct (presence_answer cd cpuid w); [ | discriminate ].
    inversion E as [[Hb Hw]]. clear E.
    set (regs := __GET_CPUID cpuid 0x40000000).
    pose proof (zero_terminated_words [ebx regs; ecx regs; edx regs])
      as (L1 & L2 & L3).
    split; [ exists [ebx regs; ecx regs; edx regs]; split; reflexivity | ].
    split; [ exact L1 | ]. split; [ exact L2 | ].
    rewrite L1 in L3. exact L3.
  - destruct (Hostinfo_HypervisorInterfaceSig_x86 w EX) as (w1 & E1 & _).
    rewrite E1 in E. clear E1.
    destruct (_ && _ && _); [ | discriminate ].
    inversion E as [[Hb Hw]]. clear E.
    set (rev := eax (__GET_CPUID cpuid 0x40000001)).
    pose proof (zero_terminated_words [rev]) as (L1 & L2 & L3).
    split; [ exists [rev]; split; reflexivity | ].
    split; [ exact L1 | ]. split; [ exact L2 | ].
    rewrite L1 in L3. exact L3.
Qed.

(** C7. On x86, with the presence bit set and a base hypervisor leaf
    whose eax is below 0x40000000, [Hostinfo_HypervisorCPUIDSig] logs the
    diagnostic and returns the 16-byte buffer made of ebx, ecx and edx of
    that leaf and a zero word: never [NULL], never a fault. *)
Theorem vendor_signature_without_signature_leaf (w : World) :
  x86 b = true ->
  presence_bit cd cpuid = true ->
  eax (__GET_CPUID cpuid 0x40000000) < 0x40000000 ->
  let regs := __GET_CPUID cpuid 0x40000000 in
  exists buf w',
    Hostinfo_HypervisorCPUIDSig b cd cpuid w = Returned (Some buf) w'
    /\ buf = chars_of_words [ebx regs; ecx regs; edx regs; 0]
    /\ List.length buf = 16%nat
    /\ logged w' = logged w ++ [LOG_NO_VENDOR_SIGNATURE].
Proof.
  intros EX HP HL regs.
  destruct (Hostinfo_HypervisorCPUIDSig_x86 w EX) as (w' & E & L & _).
  assert (A : presence_answer cd cpuid w = true).
  { unfold presence_answer. rewrite HP. destruct (hypervisorPresent w); auto. }
  rewrite A in E, L.
  apply Z.ltb_lt in HL. rewrite HL in L.
  eexists. exists w'. split; [ exact E | ].
  split; [ reflexivity | ]. split; [ reflexivity | exact L ].
Qed.

(** C8. At any point of a process lifetime
    [Hostinfo_HypervisorInterfaceSig] returns; it returns a buffer only if
    the presence bit is set, eax of leaf 0x40000000 is at least 0x40000001
    and eax of leaf 0x40000001 is not zero, and the buffer then holds that
    eax; it returns [NULL] if the presence bit is unset, if the maximum
    leaf is below 0x40000001 or if the revision is zero. *)
Theorem interface_signature_presence (w : World) :
  reachable b bd cd cpuid hypervisor ud2a_xen_cpuid w ->
  let max := eax (__GET_CPUID cpuid 0x40000000) in
  let rev := eax (__GET_CPUID cpuid 0x40000001) in
  exists r w',
    Hostinfo_HypervisorInterfaceSig b cd cpuid w = Returned r w'
    /\ (r <> None ->
        presence_bit cd cpuid = true /\ 0x40000001 <= max /\ rev <> 0
        /\ r = Some (chars_of_words [rev; 0]))
    /\ (presence_bit cd cpuid = false \/ max < 0x40000001 \/ rev = 0 ->
        r = None).
Proof.
  intros HR max rev.
  pose proof (reachable_consistent b bd cd cpuid hypervisor ud2a_xen_cpuid
                w HR) as HC.
  destruct (x86 b) eqn:EX.
  2:{ destruct (signature_readers_elsewhere w EX) as [_ E].
      exists None, w. split; [ exact E | ]. split; congruence. }
  destruct (Hostinfo_HypervisorInterfaceSig_x86 w EX) as (w' & E & _).
  rewrite (consistent_presence_answer b cd cpuid w HC) in E.
  fold max rev in E.
  eexists. exists w'. split; [ exact E | ].
  destruct (presence_bit cd cpuid); simpl.
  2:{ split; [ congruence | reflexivity ]. }
  destruct (Z.leb_spec 0x40000001 max); simpl.
  2:{ split; [ congruence | reflexivity ]. }
  destruct (Z.eqb_spec rev 0); simpl.
  - split; [ congruence | reflexivity ].
  - split; [ intros _; auto | ].
    intros [H' | [H' | H']]; [ discriminate | lia | contradiction ].
Qed.

End Signatures.

(** *** Bits *)

Lemma to_uint32_range (z : Z) : 0 <= to_uint32 z < 2 ^ 32.
Proof. unfold to_uint32. apply Z.mod_pos_bound. lia. Qed.

Lemma to_uint32_small (z : Z) : 0 <= z < 2 ^ 32 -> to_uint32 z = z.
Proof. intros H. unfold to_uint32. apply Z.mod_small. exact H. Qed.

Lemma to_uint32_idem (z : Z) : to_uint32 (to_uint32 z) = to_uint32 z.
Proof. apply to_uint32_small, to_uint32_range. Qed.

Lemma to_uint32_of_uint64 (z : Z) : to_uint32 (to_uint64 z) = to_uint32 z.
Proof.
  unfold to_uint32, to_uint64.
  apply Z.mod_mod_divide.
  exists (2 ^ 32). reflexivity.
Qed.

(** The complement of a word is never that word. *)
Lemma marker_is_not_magic (magic : Z) : to_uint32 (Z.lnot magic) <> magic.
Proof.
  unfold to_uint32, Z.lnot. intros H.
  pose proof (Z.mod_pos_bound (Z.pred (- magic)) (2 ^ 32) ltac:(lia)) as B.
  pose proof (Z.div_mod (Z.pred (- magic)) (2 ^ 32) ltac:(lia)) as D.
  rewrite H in D, B. lia.
Qed.

Lemma shl1_in_range (n : Z) : 0 <= n < 32 -> shl1 n = Some (2 ^ n).
Proof.
  intros H. unfold shl1.
  destruct (Z.leb_spec 0 n); [ | lia ].
  destruct (Z.ltb_spec n 32); [ | lia ].
  simpl. f_equal. rewrite Z.shiftl_1_l. apply to_uint32_small.
  split; [ apply Z.pow_nonneg; lia | apply Z.pow_lt_mono_r; lia ].
Qed.

Lemma shl1_out_of_range (n : Z) : 32 <= n -> shl1 n = None.
Proof.
  intros H. unfold shl1.
  destruct (Z.ltb_spec n 32); [ lia | ].
  rewrite andb_false_r. reflexivity.
Qed.

(** [(result & (1 << n)) == 0] tests bit [n]. *)
Lemma land_pow2_eqb (r n : Z) :
  0 <= n -> (Z.land r (2 ^ n) =? 0) = negb (Z.testbit r n).
Proof.
  intros Hn. destruct (Z.testbit r n) eqn:T; simpl.
  - apply Z.eqb_neq. intros H.
    assert (F : Z.testbit (Z.land r (2 ^ n)) n = false)
      by (rewrite H; apply Z.bits_0).
    rewrite Z.land_spec, T, Z.pow2_bits_true in F by lia. discriminate.
  - apply Z.eqb_eq. apply Z.bits_inj'. intros m Hm.
    rewrite Z.land_spec, Z.bits_0, Z.pow2_bits_eqb by lia.
    destruct (Z.eqb_spec n m); [ subst; rewrite T | ]; simpl;
      auto using andb_false_r.
Qed.

(** The command word of the nesting query: the sub-command in the upper
    16 bits, the command in the lower 16. *)
Lemma nesting_command_word (q c : Z) :
  0 <= q < 2 ^ 16 -> 0 <= c < 2 ^ 16 ->
  let cmd := to_uint32 (Z.lor (Z.shiftl q 16) c) in
  Z.shiftr cmd 16 = q /\ Z.land cmd 0xFFFF = c.
Proof.
  intros Hq Hc.
  assert (D : Z.land (Z.shiftl q 16) c = 0).
  { apply Z.bits_inj'. intros m Hm.
    rewrite Z.land_spec, Z.bits_0.
    destruct (Z.ltb_spec m 16).
    - rewrite Z.shiftl_spec_low by lia. reflexivity.
    - destruct (Z.eqb_spec c 0) as [-> | NZ].
      + rewrite Z.bits_0. apply andb_false_r.
      + rewrite (Z.bits_above_log2 c m); [ apply andb_false_r | lia | ].
        apply Z.log2_lt_pow2; [ lia | ].
        apply Z.lt_le_trans with (2 ^ 16); [ lia | ].
        apply Z.pow_le_mono_r; lia. }
  assert (E : Z.lor (Z.shiftl q 16) c = q * 2 ^ 16 + c).
  { rewrite <- Z.lxor_lor by exact D.
    rewrite <- Z.add_nocarry_lxor by exact D.
    rewrite Z.shiftl_mul_pow2 by lia. reflexivity. }
  cbv zeta. rewrite E. rewrite to_uint32_small by lia.
  split.
  - rewrite Z.shiftr_div_pow2 by lia.
    rewrite Z.div_add_l by lia. rewrite Z.div_small by lia. lia.
  - change 0xFFFF with (Z.ones 16). rewrite Z.land_ones by lia.
    rewrite Z.add_comm, Z.mod_add by lia. apply Z.mod_small. lia.
Qed.

(** *** Feature queries *)

Section Queries.

Variable b : Build.
Variable bd : backdoor_def.
Variable cd : x86cpuid_def.
Variable cpuid : Z -> CPUIDRegs.
Variable hypervisor : list Exchange -> Request -> option Response.

(** An exchange the hypervisor answers returns the answer and is
    recorded. *)
Lemma backdoor_answered {A} (rq : Request) (rs : Response)
  (k : Response -> M A) (w : World) :
  hypervisor (exchanges w) rq = Some rs ->
  exists w',
    bind (backdoor hypervisor rq) k w = k rs w'
    /\ exchanges w' = exchanges w ++ [(rq, rs)]
    /\ logged w' = logged w.
Proof.
  intros H. unfold bind, backdoor. rewrite H.
  eexists. split; [ reflexivity | ]. split; reflexivity.
Qed.

(** An exchange that raises an exception ends the call. *)
Lemma backdoor_faulted {A} (rq : Request) (k : Response -> M A) (w : World) :
  hypervisor (exchanges w) rq = None ->
  bind (backdoor hypervisor rq) k w = Faulted.
Proof. intros H. unfold bind, backdoor. rewrite H. reflexivity. Qed.

(** The switch of lines 906-918, 957-969 and 1003-1015 is one exchange
    that loads the magic and the command and reads eax. *)
Lemma switch_is_one_exchange {A} (cmd : Z) (k : Z -> M A) (w : World) :
  exists rq w1,
    in_ax rq = BDOOR_MAGIC bd /\ in_bx rq = None /\ in_cx rq = cmd
    /\ exchanges w1 = exchanges w
    /\ bind (HostinfoBackdoorGetInterface b cd cpuid)
         (fun i =>
            bind
              match i with
              | BACKDOOR_INTERFACE_VMCALL =>
                  if USE_HYPERCALL b then Vmcall bd hypervisor cmd
                  else Ioportcall bd hypervisor cmd
              | BACKDOOR_INTERFACE_VMMCALL =>
                  if USE_HYPERCALL b then Vmmcall bd hypervisor cmd
                  else Ioportcall bd hypervisor cmd
              | _ => Ioportcall bd hypervisor cmd
              end k) w
       = bind (backdoor hypervisor rq)
           (fun rs => k (to_uint32 (out_ax rs))) w1.
Proof.
  destruct (HostinfoBackdoorGetInterface_returns b cd cpuid w)
    as (w1 & E1 & _ & _ & He & _).
  rewrite (bind_returned _ _ _ _ _ E1).
  destruct (selector_answer b cd cpuid w), (USE_HYPERCALL b);
    unfold Vmcall, Vmmcall, Ioportcall; rewrite bind_assoc;
    eexists; exists w1;
    (split; [ | split; [ | split; [ | split; [ exact He | reflexivity ] ] ] ]);
    reflexivity.
Qed.

(** The two halves of each Windows function are the same exchange. *)
Lemma windows_is_one_exchange {A} (cmd : Z) (k : Z -> M A) (w : World) :
  exists rq,
    in_ax rq = BDOOR_MAGIC bd /\ in_bx rq = None /\ in_cx rq = cmd
    /\ bind
         (if _WIN64 b then
            bind (Hostinfo_BackdoorInOut hypervisor (BDOOR_MAGIC bd) None cmd
                    (BDOOR_PORT bd))
              (fun rs => ret (to_uint32 (out_ax rs)))
          else
            bind (backdoor hypervisor
                    {| insn := INSN_INL; in_ax := BDOOR_MAGIC bd;
                       in_bx := None; in_cx := cmd;
                       in_dx := BDOOR_PORT bd |})
              (fun rs => ret (to_uint32 (out_ax rs)))) k w
       = bind (backdoor hypervisor rq)
           (fun rs => k (to_uint32 (out_ax rs))) w.
Proof.
  unfold Hostinfo_BackdoorInOut.
  destruct (_WIN64 b); rewrite bind_assoc; eexists;
    (split; [ | split; [ | split; [ | reflexivity ] ] ]); reflexivity.
Qed.

Lemma Hostinfo_NestingSupported_exchange (w : World) :
  has_backdoor b = true ->
  exists rq w1,
    in_ax rq = BDOOR_MAGIC bd /\ in_bx rq = None
    /\ in_cx rq
       = to_uint32 (Z.lor (Z.shiftl (NESTING_CONTROL_QUERY bd) 16)
                      (BDOOR_CMD_NESTING_CONTROL bd))
    /\ exchanges w1 = exchanges w
    /\ Hostinfo_NestingSupported b bd cd cpuid hypervisor w
       = bind (backdoor hypervisor rq)
           (fun rs =>
              if (NESTING_CONTROL_QUERY bd <=? to_uint32 (out_ax rs))
                 && negb (to_uint32 (out_ax rs) =? UINT32_ALL_ONES)
              then ret true else ret false) w1.
Proof.
  unfold has_backdoor, Hostinfo_NestingSupported. intros HB.
  destruct (_WIN32 b).
  - unfold Hostinfo_NestingSupported_win. cbv zeta.
    match goal with
    | |- context [bind _ ?k w] =>
        destruct (windows_is_one_exchange
                    (to_uint32
                       (Z.lor (Z.shiftl (NESTING_CONTROL_QUERY bd) 16)
                          (BDOOR_CMD_NESTING_CONTROL bd))) k w)
          as (rq & H1 & H2 & H3 & E)
    end.
    exists rq, w. rewrite E. auto.
  - simpl in HB. unfold Hostinfo_NestingSupported_posix. rewrite HB.
    cbv zeta.
    match goal with
    | |- context [bind _ (fun i => bind _ ?k) w] =>
        destruct (switch_is_one_exchange
                    (to_uint32
                       (Z.lor (Z.shiftl (NESTING_CONTROL_QUERY bd) 16)
                          (BDOOR_CMD_NESTING_CONTROL bd))) k w)
          as (rq & w1 & H1 & H2 & H3 & He & E)
    end.
    exists rq, w1. rewrite E. auto.
Qed.

Lemma Hostinfo_VCPUInfoBackdoor_exchange (bit : Z) (w : World) :
  has_backdoor b = true ->
  exists rq w1,
    in_ax rq = BDOOR_MAGIC bd /\ in_bx rq = None
    /\ in_cx rq = BDOOR_CMD_GET_VCPU_INFO bd
    /\ exchanges w1 = exchanges w
    /\ Hostinfo_VCPUInfoBackdoor b bd cd cpuid hypervisor bit w
       = bind (backdoor hypervisor rq)
           (fun rs => vcpu_info_test bd (to_uint32 (out_ax rs)) bit) w1.
Proof.
  unfold has_backdoor, Hostinfo_VCPUInfoBackdoor. intros HB.
  destruct (_WIN32 b).
  - unfold Hostinfo_VCPUInfoBackdoor_win. cbv zeta.
    match goal with
    | |- context [bind _ ?k w] =>
        destruct (windows_is_one_exchange (BDOOR_CMD_GET_VCPU_INFO bd) k w)
          as (rq & H1 & H2 & H3 & E)
    end.
    exists rq, w. rewrite E. auto.
  - simpl in HB. unfold Hostinfo_VCPUInfoBackdoor_posix. rewrite HB.
    cbv zeta.
    match goal with
    | |- context [bind _ (fun i => bind _ ?k) w] =>
        destruct (switch_is_one_exchange (BDOOR_CMD_GET_VCPU_INFO bd) k w)
          as (rq & w1 & H1 & H2 & H3 & He & E)
    end.
    exists rq, w1. rewrite E. auto.
Qed.

(** Built for neither Windows nor x86, the queries are stubs: no
    exchange, and the answer is false, or 0 for the build number. *)
Lemma queries_without_backdoor (bit : Z) (w : World) :
  has_backdoor b = false ->
  Hostinfo_NestingSupported b bd cd cpuid hypervisor w = Returned false w
  /\ Hostinfo_VCPUInfoBackdoor b bd cd cpuid hypervisor bit w
     = Returned false w
  /\ Hostinfo_SynchronizedVTSCs b bd cd cpuid hypervisor w = Returned false w
  /\ Hostinfo_GetNestedBuildNum b bd cd cpuid hypervisor w = Returned 0 w.
Proof.
  unfold has_backdoor. intros H. apply orb_false_iff in H as [HW HX].
  unfold Hostinfo_NestingSupported, Hostinfo_NestingSupported_posix,
    Hostinfo_VCPUInfoBackdoor, Hostinfo_VCPUInfoBackdoor_posix,
    Hostinfo_SynchronizedVTSCs, Hostinfo_GetNestedBuildNum,
    Hostinfo_GetNestedBuildNum_posix.
  rewrite HW, HX. repeat split; reflexivity.
Qed.

(** The return expression, when the reserved bit is set in [result]:
    false, and the shift by [bit] is not evaluated. *)
Lemma vcpu_info_test_reserved (result bit : Z) (w : World) :
  0 <= BDOOR_CMD_VCPU_RESERVED bd < 32 ->
  Z.testbit result (BDOOR_CMD_VCPU_RESERVED bd) = true ->
  vcpu_info_test bd result bit w = Returned false w.
Proof.
  intros HR T. unfold vcpu_info_test.
  rewrite (shl1_in_range _ HR). unfold bind, defined, ret.
  rewrite land_pow2_eqb, T by lia. reflexivity.
Qed.

(** The return expression, when the reserved bit is clear in [result] and
    [bit] is a bit of a word: that bit. *)
Lemma vcpu_info_test_requested (result bit : Z) (w : World) :
  0 <= BDOOR_CMD_VCPU_RESERVED bd < 32 ->
  0 <= bit < 32 ->
  Z.testbit result (BDOOR_CMD_VCPU_RESERVED bd) = false ->
  vcpu_info_test bd result bit w = Returned (Z.testbit result bit) w.
Proof.
  intros HR HB T. unfold vcpu_info_test.
  rewrite (shl1_in_range _ HR), (shl1_in_range _ HB).
  unfold bind, defined, ret.
  rewrite land_pow2_eqb, T by lia. simpl negb. cbv iota.
  rewrite land_pow2_eqb by lia. rewrite negb_involutive. reflexivity.
Qed.

(** The return expression, when the reserved bit is clear and [bit] is
    not a bit of a word: nothing C defines. *)
Lemma vcpu_info_test_undefined (result bit : Z) (w : World) :
  0 <= BDOOR_CMD_VCPU_RESERVED bd < 32 ->
  32 <= bit ->
  Z.testbit result (BDOOR_CMD_VCPU_RESERVED bd) = false ->
  vcpu_info_test bd result bit w = Undefined.
Proof.
  intros HR HB T. unfold vcpu_info_test.
  rewrite (shl1_in_range _ HR), (shl1_out_of_range _ HB).
  unfold bind, defined, ret.
  rewrite land_pow2_eqb, T by lia. reflexivity.
Qed.

(** C3. On a build with a backdoor, [Hostinfo_NestingSupported] issues one
    exchange whose command word has [NESTING_CONTROL_QUERY] in its upper 16
    bits (and [BDOOR_CMD_NESTING_CONTROL] in its lower 16); for every
    response it returns, and it returns true exactly when the response is
    at least [NESTING_CONTROL_QUERY] and is not 0xFFFFFFFF; for 0xFFFFFFFF
    it returns false. *)
Theorem nesting_query_decision (w : World) :
  has_backdoor b = true ->
  0 <= NESTING_CONTROL_QUERY bd < 2 ^ 16 ->
  0 <= BDOOR_CMD_NESTING_CONTROL bd < 2 ^ 16 ->
  exists rq,
    in_ax rq = BDOOR_MAGIC bd
    /\ Z.shiftr (in_cx rq) 16 = NESTING_CONTROL_QUERY bd
    /\ Z.land (in_cx rq) 0xFFFF = BDOOR_CMD_NESTING_CONTROL bd
    /\ forall rs,
         hypervisor (exchanges w) rq = Some rs ->
         let result := to_uint32 (out_ax rs) in
         exists r w',
           Hostinfo_NestingSupported b bd cd cpuid hypervisor w
           = Returned r w'
           /\ exchanges w' = exchanges w ++ [(rq, rs)]
           /\ (r = true <->
               NESTING_CONTROL_QUERY bd <= result /\ result <> 0xFFFFFFFF)
           /\ (result = 0xFFFFFFFF -> r = false).
Proof.
  intros HB HQ HC.
  destruct (Hostinfo_NestingSupported_exchange w HB)
    as (rq & w1 & H1 & _ & H3 & He & E).
  destruct (nesting_command_word _ _ HQ HC) as [U L].
  exists rq. rewrite H3. repeat split; try assumption.
  intros rs Hrs result. rewrite <- He in Hrs.
  rewrite E.
  edestruct (backdoor_answered (A := bool) rq rs) as (w' & E' & Hx & _);
    [ exact Hrs | ].
  rewrite E'. clear E'. fold result. rewrite He in Hx.
  unfold UINT32_ALL_ONES.
  destruct (Z.leb_spec (NESTING_CONTROL_QUERY bd) result);
    destruct (Z.eqb_spec result 0xFFFFFFFF); simpl;
    eexists; exists w'; (split; [ reflexivity | ]);
    (split; [ exact Hx | ]); split; try tauto; try congruence;
    split; try tauto; intros; try discriminate; lia.
Qed.

(** C2, as amended.  On a build with a backdoor, for every response,
    [Hostinfo_VCPUInfoBackdoor] returns false when the reserved bit is set
    in the response, whatever bit position is asked for; and for a bit
    position below 32, when the reserved bit is clear it returns true
    exactly when that bit of the response is set. *)
Theorem vcpu_query_reserved_bit_precedence (bit : Z) (w : World) :
  has_backdoor b = true ->
  0 <= BDOOR_CMD_VCPU_RESERVED bd < 32 ->
  (exists rq,
      in_ax rq = BDOOR_MAGIC bd
      /\ in_cx rq = BDOOR_CMD_GET_VCPU_INFO bd
      /\ forall rs,
           hypervisor (exchanges w) rq = Some rs ->
           Z.testbit (to_uint32 (out_ax rs)) (BDOOR_CMD_VCPU_RESERVED bd)
           = true ->
           exists w',
             Hostinfo_VCPUInfoBackdoor b bd cd cpuid hypervisor bit w
             = Returned false w'
             /\ exchanges w' = exchanges w ++ [(rq, rs)])
  /\ (0 <= bit < 32 -> vcpu_query_contract b bd cd cpuid hypervisor bit w).
Proof.
  intros HB HR.
  destruct (Hostinfo_VCPUInfoBackdoor_exchange bit w HB)
    as (rq & w1 & H1 & _ & H3 & He & E).
  split.
  - exists rq. repeat split; try assumption.
    intros rs Hrs T. rewrite <- He in Hrs. rewrite E.
    edestruct (backdoor_answered (A := bool) rq rs) as (w' & E' & Hx & _);
      [ exact Hrs | ].
    rewrite E'. rewrite (vcpu_info_test_reserved _ _ _ HR T).
    exists w'. rewrite <- He. auto.
  - intros Hbit. exists rq. repeat split; try assumption.
    intros rs Hrs result. rewrite <- He in Hrs. rewrite E.
    edestruct (backdoor_answered (A := bool) rq rs) as (w' & E' & Hx & _);
      [ exact Hrs | ].
    rewrite E'. fold result. rewrite He in Hx.
    destruct (Z.testbit result (BDOOR_CMD_VCPU_RESERVED bd)) eqn:T.
    + rewrite (vcpu_info_test_reserved _ _ _ HR T).
      exists false, w'. repeat split; auto. discriminate.
    + rewrite (vcpu_info_test_requested _ _ _ HR Hbit T).
      eexists. exists w'. repeat split; auto. discriminate.
Qed.

(** C10. On a build with a backdoor, [Hostinfo_VCPUInfoBackdoor] asked for
    the bit [BDOOR_CMD_VCPU_RESERVED] returns false for every response: a
    response with the bit set is an unimplemented command, and a response
    with the bit clear fails the test of that same bit. *)
Theorem vcpu_query_of_reserved_bit_is_false (w : World) :
  has_backdoor b = true ->
  0 <= BDOOR_CMD_VCPU_RESERVED bd < 32 ->
  exists rq,
    in_ax rq = BDOOR_MAGIC bd
    /\ in_cx rq = BDOOR_CMD_GET_VCPU_INFO bd
    /\ forall rs,
         hypervisor (exchanges w) rq = Some rs ->
         exists w',
           Hostinfo_VCPUInfoBackdoor b bd cd cpuid hypervisor
             (BDOOR_CMD_VCPU_RESERVED bd) w
           = Returned false w'
           /\ exchanges w' = exchanges w ++ [(rq, rs)].
Proof.
  intros HB HR.
  destruct (Hostinfo_VCPUInfoBackdoor_exchange
              (BDOOR_CMD_VCPU_RESERVED bd) w HB)
    as (rq & w1 & H1 & _ & H3 & He & E).
  exists rq. repeat split; try assumption.
  intros rs Hrs. rewrite <- He in Hrs. rewrite E.
  edestruct (backdoor_answered (A := bool) rq rs) as (w' & E' & Hx & _);
    [ exact Hrs | ].
  rewrite E'. rewrite He in Hx. exists w'. split; [ | exact Hx ].
  destruct (Z.testbit (to_uint32 (out_ax rs)) (BDOOR_CMD_VCPU_RESERVED bd))
    eqn:T.
  - apply (vcpu_info_test_reserved _ _ _ HR T).
  - rewrite (vcpu_info_test_requested _ _ _ HR HR T). rewrite T.
    reflexivity.
Qed.

End Queries.

(** *** The touch probe *)

Section Touch.

Variable b : Build.
Variable bd : backdoor_def.
Variable cd : x86cpuid_def.
Variable cpuid : Z -> CPUIDRegs.
Variable hypervisor : list Exchange -> Request -> option Response.

(** What comparing bx with the magic tells, when bx was loaded with a
    marker whose low word is the complement of the magic. *)
Lemma marker_verdict (marker bx : Z) :
  to_uint32 marker = to_uint32 (Z.lnot (BDOOR_MAGIC bd)) ->
  ((to_uint32 bx =? BDOOR_MAGIC bd) = true <-> to_uint32 bx = BDOOR_MAGIC bd)
  /\ (bx = marker -> (to_uint32 bx =? BDOOR_MAGIC bd) = false).
Proof.
  intros Hm. split; [ apply Z.eqb_eq | ].
  intros ->. apply Z.eqb_neq. rewrite Hm. apply marker_is_not_magic.
Qed.

(** A probe that is one exchange followed by the comparison satisfies the
    contract of a marker probe. *)
Lemma one_marker_exchange (w w1 : World) (rq : Request) (marker : Z) :
  in_ax rq = BDOOR_MAGIC bd ->
  in_cx rq = BDOOR_CMD_GETVERSION bd ->
  in_bx rq = Some marker ->
  to_uint32 marker = to_uint32 (Z.lnot (BDOOR_MAGIC bd)) ->
  exchanges w1 = exchanges w ->
  Hostinfo_TouchBackDoor b bd cd cpuid hypervisor w
  = bind (backdoor hypervisor rq)
      (fun rs => ret (to_uint32 (out_bx rs) =? BDOOR_MAGIC bd)) w1 ->
  touch_is_marker_probe b bd cd cpuid hypervisor w.
Proof.
  intros H1 H2 H3 H4 He E. exists rq, marker.
  repeat (split; [ assumption | ]).
  intros rs Hrs. rewrite <- He in Hrs. rewrite E.
  edestruct (backdoor_answered hypervisor (A := bool) rq rs)
    as (w' & E' & Hx & _); [ exact Hrs | ].
  rewrite E'. rewrite He in Hx.
  destruct (marker_verdict marker (out_bx rs) H4) as [V1 V2].
  eexists. exists w'. split; [ reflexivity | ]. auto.
Qed.

Lemma touch_on_windows (w : World) :
  _WIN32 b = true -> touch_is_marker_probe b bd cd cpuid hypervisor w.
Proof.
  intros HW. destruct (_WIN64 b) eqn:H64.
  - apply (one_marker_exchange w w
             {| insn := INSN_INL; in_ax := BDOOR_MAGIC bd;
                in_bx := Some (to_uint64 (Z.lnot (BDOOR_MAGIC bd)));
                in_cx := BDOOR_CMD_GETVERSION bd; in_dx := BDOOR_PORT bd |}
             (to_uint64 (Z.lnot (BDOOR_MAGIC bd))));
      try reflexivity; [ apply to_uint32_of_uint64 | ].
    unfold Hostinfo_TouchBackDoor, Hostinfo_TouchBackDoor_win,
      Hostinfo_BackdoorInOut. rewrite HW, H64.
    unfold bind, ret. destruct (backdoor _ _ w); try reflexivity.
    destruct (_ =? _); reflexivity.
  - apply (one_marker_exchange w w
             {| insn := INSN_INL; in_ax := BDOOR_MAGIC bd;
                in_bx := Some (to_uint32 (Z.lnot (BDOOR_MAGIC bd)));
                in_cx := BDOOR_CMD_GETVERSION bd; in_dx := BDOOR_PORT bd |}
             (to_uint32 (Z.lnot (BDOOR_MAGIC bd))));
      try reflexivity; [ apply to_uint32_idem | ].
    unfold Hostinfo_TouchBackDoor, Hostinfo_TouchBackDoor_win.
    rewrite HW, H64.
    unfold bind, ret. destruct (backdoor _ _ w); try reflexivity.
    destruct (_ =? _); reflexivity.
Qed.

Lemma touch_on_aarch64 (w : World) :
  _WIN32 b = false -> x86 b = false -> __aarch64__ b = true ->
  touch_is_marker_probe b bd cd cpuid hypervisor w.
Proof.
  intros HW HX HA.
  apply (one_marker_exchange w w
            {| insn :=
                 INSN_MRS_MDCCSR
                   (to_uint64
                      (Z.lor (Z.lor (Z.lor (Z.shiftl (X86_IO_MAGIC bd) 32)
                                       (X86_IO_W7_WITH bd))
                                (X86_IO_W7_DIR bd))
                         (Z.shiftl 2 (X86_IO_W7_SIZE_SHIFT bd))));
               in_ax := BDOOR_MAGIC bd;
               in_bx := Some (to_uint32 (Z.lnot (BDOOR_MAGIC bd)));
               in_cx := BDOOR_CMD_GETVERSION bd; in_dx := BDOOR_PORT bd |}
            (to_uint32 (Z.lnot (BDOOR_MAGIC bd))));
    try reflexivity; [ apply to_uint32_idem | ].
  unfold Hostinfo_TouchBackDoor, Hostinfo_TouchBackDoor_posix.
  rewrite HW, HX, HA. cbv zeta.
  unfold bind, ret. destruct (backdoor _ _ w); try reflexivity.
  destruct (_ =? _); reflexivity.
Qed.

Lemma touch_through_the_port (w w1 : World) (i : BackdoorInterface) :
  _WIN32 b = false -> x86 b = true ->
  HostinfoBackdoorGetInterface b cd cpuid w = Returned i w1 ->
  i = BACKDOOR_INTERFACE_IO \/ USE_HYPERCALL b = false ->
  touch_is_marker_probe b bd cd cpuid hypervisor w.
Proof.
  intros HW HX E Hi.
  destruct (HostinfoBackdoorGetInterface_returns b cd cpuid w)
    as (w1' & E' & _ & _ & He & _).
  rewrite E' in E. inversion E as [[Ei Ew]]. subst w1'. clear E.
  apply (one_marker_exchange w w1
           {| insn := INSN_INL; in_ax := BDOOR_MAGIC bd;
              in_bx := Some (to_uint32 (Z.lnot (BDOOR_MAGIC bd)));
              in_cx := BDOOR_CMD_GETVERSION bd; in_dx := BDOOR_PORT bd |}
           (to_uint32 (Z.lnot (BDOOR_MAGIC bd))));
    try reflexivity; [ apply to_uint32_idem | exact He | ].
  unfold Hostinfo_TouchBackDoor, Hostinfo_TouchBackDoor_posix.
  rewrite HW, HX. rewrite (bind_returned _ _ _ _ _ E'). rewrite Ei.
  cbv zeta.
  assert (P : forall w0,
             bind (backdoor hypervisor
                     {| insn := INSN_INL; in_ax := BDOOR_MAGIC bd;
                        in_bx := Some (to_uint32 (Z.lnot (BDOOR_MAGIC bd)));
                        in_cx := BDOOR_CMD_GETVERSION bd;
                        in_dx := BDOOR_PORT bd |})
               (fun rs =>
                  if to_uint32 (out_bx rs) =? BDOOR_MAGIC bd
                  then ret true else ret false) w0
             = bind (backdoor hypervisor
                     {| insn := INSN_INL; in_ax := BDOOR_MAGIC bd;
                        in_bx := Some (to_uint32 (Z.lnot (BDOOR_MAGIC bd)));
                        in_cx := BDOOR_CMD_GETVERSION bd;
                        in_dx := BDOOR_PORT bd |})
                 (fun rs => ret (to_uint32 (out_bx rs) =? BDOOR_MAGIC bd))
                 w0).
  { intros w0. unfold bind, ret. destruct (backdoor _ _ w0); try reflexivity.
    destruct (_ =? _); reflexivity. }
  destruct Hi as [-> | HU].
  - apply P.
  - rewrite HU. destruct i; apply P.
Qed.

Lemma touch_through_a_hypercall (w w1 : World) (i : BackdoorInterface) :
  _WIN32 b = false -> x86 b = true ->
  HostinfoBackdoorGetInterface b cd cpuid w = Returned i w1 ->
  i <> BACKDOOR_INTERFACE_IO ->
  USE_HYPERCALL b = true
  /\ (i = BACKDOOR_INTERFACE_VMCALL \/ i = BACKDOOR_INTERFACE_VMMCALL)
  /\ Hostinfo_TouchBackDoor b bd cd cpuid hypervisor w = Returned true w1
  /\ exchanges w1 = exchanges w.
Proof.
  intros HW HX E Hi.
  destruct (HostinfoBackdoorGetInterface_returns b cd cpuid w)
    as (w1' & E' & _ & _ & He & _).
  rewrite E' in E. inversion E as [[Ei Ew]]. subst w1'. clear E.
  pose proof (selector_answer_determined b cd cpuid w) as ND.
  rewrite Ei in ND.
  assert (HU : USE_HYPERCALL b = true).
  { destruct (USE_HYPERCALL b) eqn:EU; [ reflexivity | ].
    unfold selector_answer in Ei. rewrite EU in Ei. congruence. }
  split; [ exact HU | ].
  unfold Hostinfo_TouchBackDoor, Hostinfo_TouchBackDoor_posix.
  rewrite HW, HX. rewrite (bind_returned _ _ _ _ _ E'). rewrite Ei, HU.
  destruct i; try contradiction; (split; [ auto | ]); split;
    solve [ reflexivity | exact He ].
Qed.

(** C4, as amended.  Where the probe goes through a port read (on
    Windows, on aarch64, and on x86 elsewhere when the interface selector
    answers port I/O) it loads the complement of the magic into bx, issues
    the version query, and returns true exactly when bx then holds the
    magic, so false when the marker is still there.  Where the selector
    answers VMCALL or VMMCALL, which takes [USE_HYPERCALL], the probe
    returns true and issues no exchange.  On a build for neither x86 nor
    aarch64 nor Windows it returns false and issues no exchange. *)
Theorem touch_probe_by_interface (w : World) :
  (_WIN32 b = true \/ (x86 b = false /\ __aarch64__ b = true) ->
   touch_is_marker_probe b bd cd cpuid hypervisor w)
  /\ (_WIN32 b = false -> x86 b = true ->
      forall i w1,
        HostinfoBackdoorGetInterface b cd cpuid w = Returned i w1 ->
        (i = BACKDOOR_INTERFACE_IO ->
         touch_is_marker_probe b bd cd cpuid hypervisor w)
        /\ (i <> BACKDOOR_INTERFACE_IO ->
            USE_HYPERCALL b = true
            /\ (i = BACKDOOR_INTERFACE_VMCALL
                \/ i = BACKDOOR_INTERFACE_VMMCALL)
            /\ exists w',
                Hostinfo_TouchBackDoor b bd cd cpuid hypervisor w
                = Returned true w'
                /\ exchanges w' = exchanges w))
  /\ (_WIN32 b = false -> x86 b = false -> __aarch64__ b = false ->
      Hostinfo_TouchBackDoor b bd cd cpuid hypervisor w = Returned false w).
Proof.
  split; [ | split ].
  - intros [HW | [HX HA]].
    + apply touch_on_windows; exact HW.
    + destruct (_WIN32 b) eqn:HW.
      * apply touch_on_windows; exact HW.
      * apply touch_on_aarch64; assumption.
  - intros HW HX i w1 E. split.
    + intros Hi. eapply touch_through_the_port; eauto.
    + intros Hi.
      destruct (touch_through_a_hypercall w w1 i HW HX E Hi)
        as (HU & Hc & Et & He).
      split; [ exact HU | ]. split; [ exact Hc | ].
      exists w1. split; assumption.
  - intros HW HX HA.
    unfold Hostinfo_TouchBackDoor, Hostinfo_TouchBackDoor_posix.
    rewrite HW, HX, HA. reflexivity.
Qed.

End Touch.

(** *** The trap-based prober *)

(** [strcmp] is 0 exactly when the two pointers denote the same string. *)
Lemma strcmp_zero_iff (s1 s2 : list Z) :
  strcmp s1 s2 = 0 <-> c_string s1 = c_string s2.
Proof.
  revert s2. induction s1 as [ | c1 t1 IH]; intros [ | c2 t2]; simpl.
  - tauto.
  - destruct (Z.eqb_spec c2 0); split; intros H;
      try reflexivity; try discriminate; lia.
  - destruct (Z.eqb_spec c1 0); split; intros H;
      try reflexivity; try discriminate; lia.
  - destruct (Z.eqb_spec c1 c2) as [-> | NE].
    + destruct (Z.eqb_spec c2 0); [ tauto | ].
      rewrite IH. split; [ intros ->; reflexivity | ].
      intros H; inversion H; reflexivity.
    + destruct (Z.eqb_spec c1 0), (Z.eqb_spec c2 0); split; intros H;
        try discriminate; try lia.
      inversion H. contradiction.
Qed.

Section Xen.

Variable b : Build.
Variable cd : x86cpuid_def.
Variable ud2a_xen_cpuid : Z -> option CPUIDRegs.

(** C9. On Linux on x86, when the trap sequence does not fault,
    [Hostinfo_TouchXen] returns true exactly when the string made of the
    three registers it got back, closed by a zero word, is the string
    [CPUID_XEN_HYPERVISOR_VENDOR_STRING], compared in full; then it changes
    nothing.  In every other case, however much of the string matches, it
    returns false after logging. *)
Theorem xen_probe_is_a_full_string_compare (w : World) (out : CPUIDRegs) :
  __linux__ b && x86 b = true ->
  ud2a_xen_cpuid XEN_CPUID = Some out ->
  let name :=
    [to_uint32 (ebx out); to_uint32 (ecx out); to_uint32 (edx out); 0] in
  let vendor := c_string (chars_of_words name) in
  let expected :=
    c_string (literal (CPUID_XEN_HYPERVISOR_VENDOR_STRING cd)) in
  exists r w',
    Hostinfo_TouchXen b cd ud2a_xen_cpuid w = Returned r w'
    /\ (r = true <-> vendor = expected)
    /\ (r = true -> w' = w)
    /\ (r = false ->
        interface w' = interface w
        /\ hypervisorPresent w' = hypervisorPresent w
        /\ exchanges w' = exchanges w
        /\ logged w'
           = logged w
             ++ [LOG_NOT_TESTED; LOG_XEN_UNRECOGNIZED;
                 LOG_XEN_CPUID XEN_CPUID (to_uint32 (ebx out))
                   (to_uint32 (ecx out)) (to_uint32 (edx out))]).
Proof.
  intros HB Hout name vendor expected.
  unfold Hostinfo_TouchXen. rewrite HB, Hout. cbv zeta.
  cbn [eax ebx ecx edx]. fold name.
  pose proof (strcmp_zero_iff
                (literal (CPUID_XEN_HYPERVISOR_VENDOR_STRING cd))
                (chars_of_words name)) as S.
  fold vendor expected in S.
  destruct (Z.eqb_spec
              (strcmp (literal (CPUID_XEN_HYPERVISOR_VENDOR_STRING cd))
                 (chars_of_words name)) 0) as [Z0 | NZ].
  - exists true, w. split; [ reflexivity | ].
    split; [ | split; [ reflexivity | discriminate ] ].
    split; [ intros _; symmetry; apply S; exact Z0 | reflexivity ].
  - eexists false, _. split; [ reflexivity | ].
    split; [ | split; [ discriminate | ] ].
    + split; [ discriminate | ].
      intros H. exfalso. apply NZ, S. symmetry. exact H.
    + intros _. cbn [interface hypervisorPresent exchanges logged].
      rewrite <- !app_assoc. repeat split; reflexivity.
Qed.

End Xen.

(** ** The scenarios, run *)

(** Both capability bits set: VMCALL wins. *)
Example selector_prefers_vmcall :
  exists w',
    HostinfoBackdoorGetInterface linux_x86_64 vmware_x86cpuid_def
      (cpuid_vmware 3) process_start
    = Returned BACKDOOR_INTERFACE_VMCALL w'.
Proof. eexists. vm_compute. reflexivity. Qed.

(** The same processor, a compiler without the instructions: port I/O. *)
Example selector_without_hypercall :
  HostinfoBackdoorGetInterface linux_x86_64_old_gcc vmware_x86cpuid_def
    (cpuid_vmware 3) process_start
  = Returned BACKDOOR_INTERFACE_IO process_start.
Proof. vm_compute. reflexivity. Qed.

(** The vendor signature under VMware reads VMwareVMware. *)
Example vendor_signature_round_trip :
  exists buf w',
    Hostinfo_HypervisorCPUIDSig linux_x86_64 vmware_x86cpuid_def
      (cpuid_vmware 0) process_start
    = Returned (Some buf) w'
    /\ c_string buf ++ [0] = literal "VMwareVMware".
Proof. eexists. eexists. split; vm_compute; reflexivity. Qed.

(** A vendor tag that starts like Xen's and is not Xen's is no match. *)
Example xen_partial_match_is_no_match :
  exists w',
    Hostinfo_TouchXen linux_x86_64 vmware_x86cpuid_def xen_variant_answers
      process_start
    = Returned false w'
    /\ List.length (logged w') = 3%nat.
Proof. eexists. split; vm_compute; reflexivity. Qed.

(** Outside Xen the trap sequence ends the call. *)
Example xen_probe_faults_on_hardware :
  Hostinfo_TouchXen linux_x86_64 vmware_x86cpuid_def no_xen process_start
  = Faulted.
Proof. reflexivity. Qed.

(** The build number 0xFFFFFFFF comes back unchanged. *)
Example build_number_sentinel_is_preserved :
  exists w',
    Hostinfo_GetNestedBuildNum linux_x86_64 vmware_backdoor_def
      vmware_x86cpuid_def (cpuid_vmware 0) (hypervisor_answering 0xFFFFFFFF)
      process_start
    = Returned 0xFFFFFFFF w'.
Proof. eexists. vm_compute. reflexivity. Qed.

(** ** Witnesses and counterexamples *)

Lemma selector_returns_a_usable_interface_witness :
  reachable linux_x86_64 vmware_backdoor_def vmware_x86cpuid_def
    (cpuid_vmware 3) hypervisor_silent no_xen process_start
  /\ exists w',
      HostinfoBackdoorGetInterface linux_x86_64 vmware_x86cpuid_def
        (cpuid_vmware 3) process_start
      = Returned BACKDOOR_INTERFACE_VMCALL w'.
Proof.
  assert (R : reachable linux_x86_64 vmware_backdoor_def vmware_x86cpuid_def
                (cpuid_vmware 3) hypervisor_silent no_xen process_start)
    by (exists []; reflexivity).
  split; [ exact R | ].
  destruct (selector_returns_a_usable_interface linux_x86_64
              vmware_backdoor_def vmware_x86cpuid_def (cpuid_vmware 3)
              hypervisor_silent no_xen process_start R)
    as (i & w' & E & _ & _ & _ & _ & H).
  exists w'. rewrite E. f_equal.
  apply H; reflexivity.
Defined.

Lemma vcpu_query_reserved_bit_precedence_witness :
  has_backdoor linux_x86_64 = true
  /\ 0 <= BDOOR_CMD_VCPU_RESERVED vmware_backdoor_def < 32
  /\ 0 <= 1 < 32
  /\ vcpu_query_contract linux_x86_64 vmware_backdoor_def vmware_x86cpuid_def
       (cpuid_vmware 0) (hypervisor_answering 2) 1 process_start.
Proof.
  assert (HB : has_backdoor linux_x86_64 = true) by reflexivity.
  assert (HR : 0 <= BDOOR_CMD_VCPU_RESERVED vmware_backdoor_def < 32)
    by (simpl; lia).
  assert (H1 : 0 <= 1 < 32) by lia.
  repeat (split; [ assumption | ]).
  apply (vcpu_query_reserved_bit_precedence linux_x86_64 vmware_backdoor_def
           vmware_x86cpuid_def (cpuid_vmware 0) (hypervisor_answering 2) 1
           process_start HB HR).
  exact H1.
Defined.

(** C2, as it was stated, fails.  Asked for bit 32 of a response whose
    reserved bit is clear, the function evaluates [1 << 32], which C does
    not define: it has no return value, so it does not return the value of
    bit 32 of the response. *)
Lemma vcpu_query_bit_32_is_undefined :
  Hostinfo_VCPUInfoBackdoor linux_x86_64 vmware_backdoor_def
    vmware_x86cpuid_def (cpuid_vmware 0) (hypervisor_answering 1) 32
    process_start
  = Undefined
  /\ ~ vcpu_query_contract linux_x86_64 vmware_backdoor_def
         vmware_x86cpuid_def (cpuid_vmware 0) (hypervisor_answering 1) 32
         process_start.
Proof.
  split; [ vm_compute; reflexivity | ].
  intros (rq & _ & _ & H).
  destruct (H _ eq_refl) as (r & w' & E & _).
  vm_compute in E. discriminate.
Qed.

Lemma nesting_query_decision_witness :
  has_backdoor windows_x64 = true
  /\ 0 <= NESTING_CONTROL_QUERY vmware_backdoor_def < 2 ^ 16
  /\ 0 <= BDOOR_CMD_NESTING_CONTROL vmware_backdoor_def < 2 ^ 16
  /\ exists rq,
      Z.shiftr (in_cx rq) 16 = 2
      /\ forall rs,
           hypervisor_answering 2 [] rq = Some rs ->
           exists w',
             Hostinfo_NestingSupported windows_x64 vmware_backdoor_def
               vmware_x86cpuid_def cpuid_native (hypervisor_answering 2)
               process_start
             = Returned true w'.
Proof.
  assert (HB : has_backdoor windows_x64 = true) by reflexivity.
  assert (HQ : 0 <= NESTING_CONTROL_QUERY vmware_backdoor_def < 2 ^ 16)
    by (simpl; lia).
  assert (HC : 0 <= BDOOR_CMD_NESTING_CONTROL vmware_backdoor_def < 2 ^ 16)
    by (simpl; lia).
  repeat (split; [ assumption | ]).
  destruct (nesting_query_decision windows_x64 vmware_backdoor_def
              vmware_x86cpuid_def cpuid_native (hypervisor_answering 2)
              process_start HB HQ HC)
    as (rq & _ & U & _ & H).
  exists rq. split; [ exact U | ].
  intros rs Hrs. destruct (H rs Hrs) as (r & w' & E & _ & D & _).
  exists w'. rewrite E. f_equal. apply D.
  inversion Hrs. simpl. vm_compute. split; [ discriminate | discriminate ].
Defined.

Lemma touch_probe_by_interface_witness :
  (_WIN32 windows_x64 = true
   /\ touch_is_marker_probe windows_x64 vmware_backdoor_def
        vmware_x86cpuid_def cpuid_native (hypervisor_answering 6)
        process_start)
  /\ (_WIN32 linux_x86_64 = false
      /\ x86 linux_x86_64 = true
      /\ exists w1 w',
          HostinfoBackdoorGetInterface linux_x86_64 vmware_x86cpuid_def
            (cpuid_vmware 1) process_start
          = Returned BACKDOOR_INTERFACE_VMMCALL w1
          /\ Hostinfo_TouchBackDoor linux_x86_64 vmware_backdoor_def
               vmware_x86cpuid_def (cpuid_vmware 1) no_hypervisor
               process_start
             = Returned true w'
          /\ exchanges w' = []).
Proof.
  split.
  - split; [ reflexivity | ].
    apply (touch_probe_by_interface windows_x64 vmware_backdoor_def
             vmware_x86cpuid_def cpuid_native (hypervisor_answering 6)
             process_start).
    left. reflexivity.
  - split; [ reflexivity | ]. split; [ reflexivity | ].
    eexists.
    assert (E : HostinfoBackdoorGetInterface linux_x86_64 vmware_x86cpuid_def
                  (cpuid_vmware 1) process_start
                = Returned BACKDOOR_INTERFACE_VMMCALL
                    {| interface := BACKDOOR_INTERFACE_VMMCALL;
                       hypervisorPresent := false; exchanges := [];
                       logged := [] |})
      by (vm_compute; reflexivity).
    destruct (touch_probe_by_interface linux_x86_64 vmware_backdoor_def
                vmware_x86cpuid_def (cpuid_vmware 1) no_hypervisor
                process_start) as (_ & H & _).
    destruct (H eq_refl eq_refl _ _ E) as (_ & H').
    destruct H' as (_ & _ & w' & Et & Hx); [ discriminate | ].
    exists w'. split; [ exact E | ]. split; [ exact Et | exact Hx ].
Defined.

(** C4, as it was stated, fails.  On Linux with [USE_HYPERCALL], under a
    hypervisor that offers VMCALL, the probe returns true and issues no
    exchange: no marker is loaded, and no register is looked at.  Here the
    backdoor would have left the marker where it was. *)
Lemma touch_with_hypercall_is_no_marker_probe :
  (exists w',
      Hostinfo_TouchBackDoor linux_x86_64 vmware_backdoor_def
        vmware_x86cpuid_def (cpuid_vmware 2) hypervisor_silent process_start
      = Returned true w'
      /\ exchanges w' = [])
  /\ ~ touch_is_marker_probe linux_x86_64 vmware_backdoor_def
         vmware_x86cpuid_def (cpuid_vmware 2) hypervisor_silent
         process_start.
Proof.
  split.
  - eexists. split; vm_compute; reflexivity.
  - intros (rq & marker & _ & _ & _ & _ & H).
    destruct (H _ eq_refl) as (r & w' & E & Hx & _).
    vm_compute in E. inversion E; subst. discriminate.
Qed.

Lemma signature_buffers_are_nul_terminated_witness :
  exists buf w',
    Hostinfo_HypervisorCPUIDSig linux_x86_64 vmware_x86cpuid_def
      (cpuid_vmware 0) process_start
    = Returned (Some buf) w'
    /\ List.length buf = 16%nat
    /\ skipn 12 buf = [0; 0; 0; 0].
Proof.
  assert (E : exists buf w',
             Hostinfo_HypervisorCPUIDSig linux_x86_64 vmware_x86cpuid_def
               (cpuid_vmware 0) process_start
             = Returned (Some buf) w')
    by (eexists; eexists; vm_compute; reflexivity).
  destruct E as (buf & w' & E). exists buf, w'.
  destruct (signature_buffers_are_nul_terminated linux_x86_64
              vmware_x86cpuid_def (cpuid_vmware 0) process_start w' buf)
    as ((_ & L & Z0 & _) & _); [ exact E | ].
  auto.
Defined.

Lemma cached_answers_idempotent_and_monotone_witness :
  exists w0 w1 w2,
    Hostinfo_HypervisorPresent vmware_x86cpuid_def (cpuid_vmware 2)
      process_start
    = Returned true w0
    /\ run linux_x86_64 vmware_backdoor_def vmware_x86cpuid_def
         (cpuid_vmware 2) (hypervisor_answering 6) no_xen
         [CALL_TouchBackDoor; CALL_NestingSupported; CALL_HyperV] w0
       = Returned tt w1
    /\ Hostinfo_HypervisorPresent vmware_x86cpuid_def (cpuid_vmware 2) w1
       = Returned true w2.
Proof.
  assert (E0 : exists w0,
             Hostinfo_HypervisorPresent vmware_x86cpuid_def (cpuid_vmware 2)
               process_start
             = Returned true w0)
    by (eexists; vm_compute; reflexivity).
  destruct E0 as (w0 & E0).
  assert (E1 : exists w1,
             run linux_x86_64 vmware_backdoor_def vmware_x86cpuid_def
               (cpuid_vmware 2) (hypervisor_answering 6) no_xen
               [CALL_TouchBackDoor; CALL_NestingSupported; CALL_HyperV] w0
             = Returned tt w1).
  { vm_compute in E0. inversion E0; subst.
    eexists. vm_compute. reflexivity. }
  destruct E1 as (w1 & E1).
  destruct (cached_answers_idempotent_and_monotone linux_x86_64
              vmware_backdoor_def vmware_x86cpuid_def (cpuid_vmware 2)
              (hypervisor_answering 6) no_xen process_start)
    as (_ & _ & H & _).
  destruct (H w0 _ w1 E0 E1) as (w2 & E2 & _).
  exists w0, w1, w2. auto.
Defined.

Lemma vendor_signature_without_signature_leaf_witness :
  x86 linux_x86_64 = true
  /\ presence_bit vmware_x86cpuid_def cpuid_anonymous = true
  /\ eax (__GET_CPUID cpuid_anonymous 0x40000000) < 0x40000000
  /\ exists buf w',
      Hostinfo_HypervisorCPUIDSig linux_x86_64 vmware_x86cpuid_def
        cpuid_anonymous process_start
      = Returned (Some buf) w'
      /\ List.length buf = 16%nat
      /\ logged w' = [LOG_NO_VENDOR_SIGNATURE].
Proof.
  assert (HX : x86 linux_x86_64 = true) by reflexivity.
  assert (HP : presence_bit vmware_x86cpuid_def cpuid_anonymous = true)
    by reflexivity.
  assert (HL : eax (__GET_CPUID cpuid_anonymous 0x40000000) < 0x40000000)
    by (vm_compute; reflexivity).
  repeat (split; [ assumption | ]).
  destruct (vendor_signature_without_signature_leaf linux_x86_64
              vmware_x86cpuid_def cpuid_anonymous process_start HX HP HL)
    as (buf & w' & E & _ & L & G).
  exists buf, w'. auto.
Defined.

Lemma interface_signature_presence_witness :
  reachable linux_x86_64 vmware_backdoor_def vmware_x86cpuid_def
    cpuid_anonymous hypervisor_silent no_xen process_start
  /\ exists w',
      Hostinfo_HypervisorInterfaceSig linux_x86_64 vmware_x86cpuid_def
        cpuid_anonymous process_start
      = Returned None w'.
Proof.
  assert (R : reachable linux_x86_64 vmware_backdoor_def vmware_x86cpuid_def
                cpuid_anonymous hypervisor_silent no_xen process_start)
    by (exists []; reflexivity).
  split; [ exact R | ].
  destruct (interface_signature_presence linux_x86_64 vmware_backdoor_def
              vmware_x86cpuid_def cpuid_anonymous hypervisor_silent no_xen
              process_start R)
    as (r & w' & E & _ & H).
  exists w'. rewrite E. f_equal. apply H.
  right. left. vm_compute. reflexivity.
Defined.

Lemma xen_probe_is_a_full_string_compare_witness :
  __linux__ linux_x86_64 && x86 linux_x86_64 = true
  /\ xen_answers XEN_CPUID
     = Some {| eax := 0x40000005; ebx := 0x566E6558; ecx := 0x65584D4D;
               edx := 0x4D4D566E |}
  /\ Hostinfo_TouchXen linux_x86_64 vmware_x86cpuid_def xen_answers
       process_start
     = Returned true process_start.
Proof.
  assert (HB : __linux__ linux_x86_64 && x86 linux_x86_64 = true)
    by reflexivity.
  assert (HO : xen_answers XEN_CPUID
               = Some {| eax := 0x40000005; ebx := 0x566E6558;
                         ecx := 0x65584D4D; edx := 0x4D4D566E |})
    by reflexivity.
  repeat (split; [ assumption | ]).
  destruct (xen_probe_is_a_full_string_compare linux_x86_64
              vmware_x86cpuid_def xen_answers process_start _ HB HO)
    as (r & w' & E & D & U & _).
  assert (Hr : r = true) by (apply D; vm_compute; reflexivity).
  rewrite E, Hr, (U Hr). reflexivity.
Defined.

Lemma vcpu_query_of_reserved_bit_is_false_witness :
  has_backdoor linux_x86_64_old_gcc = true
  /\ 0 <= BDOOR_CMD_VCPU_RESERVED vmware_backdoor_def < 32
  /\ exists rq,
      forall rs,
        hypervisor_answering 0x7FFFFFFF [] rq = Some rs ->
        exists w',
          Hostinfo_VCPUInfoBackdoor linux_x86_64_old_gcc vmware_backdoor_def
            vmware_x86cpuid_def (cpuid_vmware 0)
            (hypervisor_answering 0x7FFFFFFF) 31 process_start
          = Returned false w'.
Proof.
  assert (HB : has_backdoor linux_x86_64_old_gcc = true) by reflexivity.
  assert (HR : 0 <= BDOOR_CMD_VCPU_RESERVED vmware_backdoor_def < 32)
    by (simpl; lia).
  repeat (split; [ assumption | ]).
  destruct (vcpu_query_of_reserved_bit_is_false linux_x86_64_old_gcc
              vmware_backdoor_def vmware_x86cpuid_def (cpuid_vmware 0)
              (hypervisor_answering 0x7FFFFFFF) process_start HB HR)
    as (rq & _ & _ & H).
  exists rq. intros rs Hrs. destruct (H rs Hrs) as (w' & E & _).
  exists w'. exact E.
Defined.
